(** * The FTP output binding (bindings/ftp/ftp.go)

    A shallow embedding of the FTP binding: secure path resolution
    ([getSecureDirAndFilename], [getSecureDir]), the merge of static
    configuration with request metadata ([mergeWithRequestMetadata]) and the
    four operation handlers ([create], [list], [get], [delete]) together with
    the sequence of FTP commands each of them issues.

    The binding depends on three libraries that are not part of the
    repository: Go's [path/filepath] (Unix flavour), the
    [filepath-securejoin] package and the [jlaffaye/ftp] client.  The first
    two are modelled as executable functions on strings, the third as an
    oracle that answers every command from the history of the session. *)

From Stdlib Require Import Ascii String List Bool Arith Lia.
From stdpp Require Import base option gmap strings.

Import ListNotations.
Local Open Scope string_scope.
Local Open Scope list_scope.

(** ** Go's [path/filepath] on Unix *)

Module Filepath.

(** [filepath.Separator] *)
Definition Separator : ascii := "/"%char.

Definition is_sep (c : ascii) : bool := Ascii.eqb c Separator.

(** [strings.Split(s, "/")]: always at least one element. *)
Fixpoint split_sep (s : string) : list string :=
  match s with
  | EmptyString => [EmptyString]
  | String c s' =>
      if is_sep c then EmptyString :: split_sep s'
      else match split_sep s' with
           | [] => [String c EmptyString]
           | h :: t => String c h :: t
           end
  end.

(** [strings.Join(l, "/")] *)
Fixpoint join_sep (l : list string) : string :=
  match l with
  | [] => EmptyString
  | [x] => x
  | x :: l' => x +:+ String Separator (join_sep l')
  end.

(** [filepath.IsAbs] *)
Definition IsAbs (p : string) : bool :=
  match p with
  | String c _ => is_sep c
  | EmptyString => false
  end.

Definition dot : string := ".".
Definition dotdot : string := "..".

(** One element of the path seen by [Clean].  The stack holds the elements
    kept so far, innermost first.  Empty elements (doubled separators) and
    [.] are dropped; [..] removes the element before it, is dropped at the
    top of a rooted path and is kept at the start of a relative one. *)
Definition clean_step (rooted : bool) (stack : list string) (e : string)
  : list string :=
  if String.eqb e EmptyString then stack
  else if String.eqb e dot then stack
  else if String.eqb e dotdot then
    match stack with
    | [] => if rooted then [] else [dotdot]
    | top :: below =>
        if String.eqb top dotdot then dotdot :: stack else below
    end
  else e :: stack.

Definition clean_elems (rooted : bool) (l : list string) : list string :=
  rev (fold_left (clean_step rooted) l []).

(** The relative path with the given elements; [.] when there are none. *)
Definition rel_path (l : list string) : string :=
  match l with
  | [] => dot
  | _ => join_sep l
  end.

(** The rooted path with the given elements; [/] when there are none. *)
Definition abs_path (l : list string) : string :=
  String Separator (join_sep l).

(** [filepath.Clean], by its documented rules: doubled separators, [.]
    elements, inner [..] elements and [..] at the top of a rooted path are
    removed; the empty path becomes [.]. *)
Definition Clean (p : string) : string :=
  let rooted := IsAbs p in
  let elems := clean_elems rooted (split_sep p) in
  if rooted then abs_path elems else rel_path elems.

(** The elements a path denotes once cleaned. *)
Definition path_elems (p : string) : list string :=
  clean_elems (IsAbs p) (split_sep p).

Fixpoint has_sep (s : string) : bool :=
  match s with
  | EmptyString => false
  | String c s' => is_sep c || has_sep s'
  end.

(** A normal element names a file or directory: it is not empty, not
    [.], not [..] and holds no separator. *)
Definition normal (e : string) : bool :=
  negb (String.eqb e EmptyString) && negb (String.eqb e dot)
  && negb (String.eqb e dotdot) && negb (has_sep e).

(** [p] lies in the directory [root] or is [root] itself: both are rooted
    or both relative, and the elements of [p] are those of [root] followed
    by normal elements. *)
Definition contained (root p : string) : Prop :=
  IsAbs p = IsAbs root /\
  exists rel, Forall (fun e => normal e = true) rel /\
              path_elems p = path_elems root ++ rel.

(** [filepath.Join]: empty elements are ignored, the rest is joined with
    the separator and cleaned; the result is empty when every element is. *)
Definition Join (elem : list string) : string :=
  match filter (fun e => negb (String.eqb e EmptyString)) elem with
  | [] => EmptyString
  | l => Clean (join_sep l)
  end.

(** [filepath.Dir]: everything up to and including the last separator,
    cleaned. *)
Definition Dir (p : string) : string :=
  match removelast (split_sep p) with
  | [] => Clean EmptyString
  | init => Clean (join_sep init +:+ String Separator EmptyString)
  end.

Fixpoint drop_trailing_empty (rl : list string) : list string :=
  match rl with
  | [] => []
  | e :: rl' => if String.eqb e EmptyString then drop_trailing_empty rl' else rl
  end.

(** [filepath.Base]: the last element of the path once trailing separators
    are stripped; [.] for the empty path, [/] for a path of separators. *)
Definition Base (p : string) : string :=
  if String.eqb p EmptyString then dot
  else match drop_trailing_empty (rev (split_sep p)) with
       | [] => String Separator EmptyString
       | e :: _ => e
       end.

End Filepath.

(** ** The [filepath-securejoin] package

    [SecureJoinVFS] as the v0.2 line of the package has it: the unsafe path
    is read one element at a time, every element is applied lexically to
    the path built so far, symbolic links found under the root are expanded
    in place, and the result is the root followed by the cleaned, rooted
    path.  The file system of the host is a parameter. *)

(** Errors raised below the binding: by the operating system, by
    [SecureJoin] when too many symbolic links are followed, and by the FTP
    client. *)
Inductive error : Type :=
| ELOOP (path : string)
| OsError (msg : string)
| FtpError (msg : string).

Inductive result (A : Type) : Type :=
| Ok (a : A)
| Err (e : error).
Arguments Ok {A} a.
Arguments Err {A} e.

Module Securejoin.
Import Filepath.

(** What [os.Lstat] tells [SecureJoin] about a path. *)
Inductive LstatResult : Type :=
| LstatInfo (symlink : bool)
| LstatNotExist
| LstatError (e : error).

(** The [VFS] interface of the package. *)
Record VFS : Type := {
  Lstat : string -> LstatResult;
  Readlink : string -> result string
}.

(** A file system without symbolic links on which [Lstat] never fails
    for another reason than a missing file. *)
Definition no_links (vfs : VFS) : Prop :=
  forall p, Lstat vfs p = LstatNotExist \/ Lstat vfs p = LstatInfo false.

(** The empty file system: nothing exists. *)
Definition emptyVFS : VFS :=
  {| Lstat := fun _ => LstatNotExist;
     Readlink := fun p => Err (OsError "readlink: no such file") |}.

(** The elements the loop of [SecureJoinVFS] takes off the front of
    [unsafePath], one per iteration, until the string is empty: the text
    up to the next separator, the separator being consumed with it. *)
Fixpoint components (s : string) : list string :=
  match s with
  | EmptyString => []
  | String c s' =>
      if is_sep c then EmptyString :: components s'
      else match components s' with
           | [] => [String c EmptyString]
           | h :: t => String c h :: t
           end
  end.

(** The buffer after the given elements were written to it, each followed
    by a separator. *)
Fixpoint buffer (done : list string) : string :=
  match done with
  | [] => EmptyString
  | d :: done' => d +:+ "/" +:+ buffer done'
  end.

(** Whether the unsafe path ends with a separator, which its elements do
    not tell. *)
Fixpoint ends_with_sep (s : string) : bool :=
  match s with
  | EmptyString => false
  | String c EmptyString => is_sep c
  | String _ s' => ends_with_sep s'
  end.

(** The unread part of the unsafe path, from its elements and from whether
    it ends with a separator. *)
Definition unread (trailing : bool) (unsafe : list string) : string :=
  join_sep unsafe +:+ (if trailing then "/" else EmptyString).

(** The number of symbolic links [SecureJoinVFS] follows before the
    iteration that fails with [ELOOP] ([n > 255]). *)
Definition maxLinks : nat := 256.

Section Walk.
Variable vfs : VFS.
Variable root : string.

(** The loop of [SecureJoinVFS].  [path] is the buffer of elements
    resolved so far (each followed by a separator), [unsafe] the
    elements still to be read, [trailing] whether the unread path ends
    with a separator and [budget] the number of links that may still be
    followed.  Expanding a link puts its target in front of the unread
    path, [dest + "/" + unsafePath]: the elements of the target come in
    front of the unread ones, and the path ends with a separator when
    nothing was left to read.  The error of the loop names the root and
    the unread path. *)
Fixpoint walk (budget : nat) (trailing : bool) (path : string)
         (unsafe : list string) {struct budget} : result string :=
  match budget with
  | O =>
      match unsafe with
      | [] => Ok path
      | p :: _ => Err (ELOOP (root +:+ "/" +:+ unread trailing unsafe))
      end
  | S budget' =>
      (fix next (path : string) (unsafe : list string) {struct unsafe}
         : result string :=
         match unsafe with
         | [] => Ok path
         | p :: rest =>
             let cleanP := Clean ("/" +:+ path +:+ p) in
             if String.eqb cleanP "/" then next EmptyString rest
             else
               let fullP := Clean (root +:+ cleanP) in
               match Lstat vfs fullP with
               | LstatError e => Err e
               | LstatNotExist | LstatInfo false =>
                   next (path +:+ p +:+ "/") rest
               | LstatInfo true =>
                   match Readlink vfs fullP with
                   | Err e => Err e
                   | Ok dest =>
                       walk budget'
                            (match rest with [] => true | _ :: _ => trailing end)
                            (if IsAbs dest then EmptyString else path)
                            (split_sep dest ++ rest)
                   end
               end
         end) path unsafe
  end.

(** [SecureJoinVFS(root, unsafePath, vfs)] *)
Definition SecureJoinVFS (unsafePath : string) : result string :=
  match walk maxLinks (ends_with_sep unsafePath) EmptyString
             (components unsafePath) with
  | Err e => Err e
  | Ok path =>
      let fullP := Clean ("/" +:+ path) in
      Ok (Clean (root +:+ fullP))
  end.
End Walk.

(** [SecureJoin(root, unsafePath)] is [SecureJoinVFS] on the file system
    of the host, which the embedding takes as a parameter. *)
Definition SecureJoin (vfs : VFS) (root unsafePath : string) : result string :=
  SecureJoinVFS vfs root unsafePath.

End Securejoin.

(** ** JSON as [encoding/json] writes it *)

Module Json.

#[local] Unset Elimination Schemes.
Inductive value : Type :=
| Null
| Str (s : string)
| Arr (items : list value)
| Obj (fields : list (string * value)).
#[local] Set Elimination Schemes.

Definition hex_digit (n : nat) : ascii :=
  match n with
  | 0 => "0" | 1 => "1" | 2 => "2" | 3 => "3" | 4 => "4" | 5 => "5"
  | 6 => "6" | 7 => "7" | 8 => "8" | 9 => "9" | 10 => "a" | 11 => "b"
  | 12 => "c" | 13 => "d" | 14 => "e" | _ => "f"
  end%char.

Definition backslash : ascii := "\"%char.
Definition dquote : ascii := "034"%char.

(** One byte below 0x80 of a string literal, as [json.Marshal] writes it
    (with its default escaping of HTML): the quote and the backslash are
    escaped with a backslash; backspace, form feed, newline, carriage
    return and tab by their letter (Go 1.22 and later; earlier versions
    write backspace and form feed as [\u0008] and [\u000c]); the other
    control characters and the characters [<], [>] and [&] as [\u00XX];
    every other byte is copied. *)
Definition escape_ascii (c : ascii) : string :=
  let n := nat_of_ascii c in
  if Ascii.eqb c dquote then String backslash (String dquote EmptyString)
  else if Ascii.eqb c backslash then String backslash (String backslash EmptyString)
  else if Nat.eqb n 8 then String backslash "b"
  else if Nat.eqb n 12 then String backslash "f"
  else if Nat.eqb n 10 then String backslash "n"
  else if Nat.eqb n 13 then String backslash "r"
  else if Nat.eqb n 9 then String backslash "t"
  else if Nat.ltb n 32 || Nat.eqb n 38 || Nat.eqb n 60 || Nat.eqb n 62 then
    String backslash
      ("u00" +:+ String (hex_digit (n / 16)) (String (hex_digit (n mod 16)) EmptyString))
  else String c EmptyString.

Definition between (lo hi : nat) (c : ascii) : bool :=
  Nat.leb lo (nat_of_ascii c) && Nat.leb (nat_of_ascii c) hi.

(** A continuation byte of UTF-8, 0x80 to 0xBF. *)
Definition continuation (c : ascii) : bool := between 128 191 c.

(** The second byte that a leading byte of a sequence of three or four
    bytes accepts: overlong forms, surrogates and code points above
    U+10FFFF are excluded. *)
Definition second_of_three (c0 c1 : ascii) : bool :=
  if Nat.eqb (nat_of_ascii c0) 224 then between 160 191 c1
  else if Nat.eqb (nat_of_ascii c0) 237 then between 128 159 c1
  else continuation c1.

Definition second_of_four (c0 c1 : ascii) : bool :=
  if Nat.eqb (nat_of_ascii c0) 240 then between 144 191 c1
  else if Nat.eqb (nat_of_ascii c0) 244 then between 128 143 c1
  else continuation c1.

(** [utf8.DecodeRuneInString] on a string that starts with a byte from
    0x80 on: the number of bytes of the well-formed sequence at its start,
    and 0 when there is none (the decoder then returns [RuneError] with
    width 1). *)
Definition rune_length (s : string) : nat :=
  match s with
  | EmptyString => 0
  | String c0 rest =>
      if between 194 223 c0 then
        match rest with
        | String c1 _ => if continuation c1 then 2 else 0
        | _ => 0
        end
      else if between 224 239 c0 then
        match rest with
        | String c1 (String c2 _) =>
            if second_of_three c0 c1 && continuation c2 then 3 else 0
        | _ => 0
        end
      else if between 240 244 c0 then
        match rest with
        | String c1 (String c2 (String c3 _)) =>
            if second_of_four c0 c1 && continuation c2 && continuation c3
            then 4 else 0
        | _ => 0
        end
      else 0
  end.

(** The line separators U+2028 and U+2029, in UTF-8 [E2 80 A8] and
    [E2 80 A9]. *)
Definition line_separator (c0 c1 c2 : ascii) : bool :=
  Nat.eqb (nat_of_ascii c0) 226 && Nat.eqb (nat_of_ascii c1) 128
  && between 168 169 c2.

(** The text between the quotes of a string literal.  Bytes below 0x80 are
    written by [escape_ascii]; a byte that does not start a well-formed
    UTF-8 sequence is replaced by [\ufffd]; the line separators are
    written [\u2028] and [\u2029]; every other sequence is copied. *)
Fixpoint escape (s : string) : string :=
  match s with
  | EmptyString => EmptyString
  | String c0 s1 =>
      if Nat.ltb (nat_of_ascii c0) 128 then escape_ascii c0 +:+ escape s1
      else
        match rune_length s, s1 with
        | 2, String c1 s2 => String c0 (String c1 (escape s2))
        | 3, String c1 (String c2 s3) =>
            if line_separator c0 c1 c2 then
              String backslash
                ("u202" +:+ String (hex_digit (nat_of_ascii c2 mod 16)) (escape s3))
            else String c0 (String c1 (String c2 (escape s3)))
        | 4, String c1 (String c2 (String c3 s4)) =>
            String c0 (String c1 (String c2 (String c3 (escape s4))))
        | _, _ => String backslash "ufffd" +:+ escape s1
        end
  end.

Definition quote (s : string) : string :=
  String dquote (escape s +:+ String dquote EmptyString).

(** The compact text [json.Marshal] produces for a value. *)
Fixpoint render (v : value) : string :=
  match v with
  | Null => "null"
  | Str s => quote s
  | Arr items =>
      "[" +:+
      (fix items_text (l : list value) : string :=
         match l with
         | [] => EmptyString
         | x :: l' =>
             match l' with
             | [] => render x
             | _ :: _ => render x +:+ "," +:+ items_text l'
             end
         end) items +:+ "]"
  | Obj fields =>
      "{" +:+
      (fix fields_text (l : list (string * value)) : string :=
         match l with
         | [] => EmptyString
         | (k, x) :: l' =>
             match l' with
             | [] => quote k +:+ ":" +:+ render x
             | _ :: _ => quote k +:+ ":" +:+ render x +:+ "," +:+ fields_text l'
             end
         end) fields +:+ "}"
  end.

End Json.

(** ** The FTP client ([jlaffaye/ftp]) *)

Module Ftpclient.

(** [ftp.EntryType] and its [String] method. *)
Inductive EntryType : Type := EntryTypeFile | EntryTypeFolder | EntryTypeLink.

Definition EntryType_String (t : EntryType) : string :=
  match t with
  | EntryTypeFile => "file"
  | EntryTypeFolder => "folder"
  | EntryTypeLink => "link"
  end.

(** [ftp.Entry], the fields the binding reads. *)
Record Entry : Type := { Name : string; Type_ : EntryType }.

(** The calls the binding makes on the client: [ftp.Dial], the methods of
    the connection, and [io.ReadAll] and [Close] on the response of
    [Retr]. *)
Inductive Command : Type :=
| Dial (addr : string)
| Login (user password : string)
| ChangeDir (path : string)
| MakeDir (path : string)
| Stor (path : string) (data : string)
| List_ (path : string)
| Retr (path : string)
| Delete (path : string)
| Quit
| ReadAll
| Close.

(** A call together with the error it returned ([None] is [nil]). *)
Definition Event : Type := Command * option error.

(** The server and the network, as the client sees them: the error of
    each call, the entries a successful [List] returns and the bytes a
    successful [io.ReadAll] returns, each determined by the calls made
    before it. *)
Record Server : Type := {
  status : list Event -> Command -> option error;
  entries : list Event -> string -> list Entry;
  content : list Event -> string
}.

Definition is_quit (ev : Event) : bool :=
  match fst ev with Quit => true | _ => false end.

Definition is_makedir (ev : Event) : bool :=
  match fst ev with MakeDir _ => true | _ => false end.

Definition is_changedir (ev : Event) : bool :=
  match fst ev with ChangeDir _ => true | _ => false end.

Definition succeeded (ev : Event) : bool :=
  match snd ev with None => true | Some _ => false end.

(** The commands of a trace, without their outcomes. *)
Definition commands (tr : list Event) : list Command := map fst tr.

End Ftpclient.

(** ** The binding *)

Import Ftpclient.

(** [bindings.OperationKind] and the kinds the binding serves. *)
Definition OperationKind : Type := string.
Definition CreateOperation : OperationKind := "create".
Definition ListOperation : OperationKind := "list".
Definition GetOperation : OperationKind := "get".
Definition DeleteOperation : OperationKind := "delete".

(** [bindings.InvokeRequest]; [Data] is a byte slice, kept as a string of
    bytes. *)
Record InvokeRequest : Type := {
  Data : string;
  Metadata : gmap string string;
  Operation : OperationKind
}.

(** [bindings.InvokeResponse], the payload only. *)
Record InvokeResponse : Type := { RespData : string }.

(** The field [Server] is written [Server_] to keep it apart from the
    server of the client model. *)
Record ftpMetadata : Type := {
  RootPath : string;
  Server_ : string;
  Port : string;
  User : string;
  Password : string;
  Directory : string
}.

Record Ftp : Type := { metadata : ftpMetadata }.

Record createResponse : Type := { FileName : string }.

Record fileInfo : Type := { Filename : string; FileType : string }.

(** The field [Directory] of [listResponse] is written [lrDirectory]. *)
Record listResponse : Type := {
  lrDirectory : string;
  FileInfos : list fileInfo
}.

(** [json.Marshal] on the two response structs, with their field tags.  A
    nil slice is written [null].  Neither call can fail. *)
Definition json_Marshal_createResponse (r : createResponse) : result string :=
  Ok (Json.render (Json.Obj [("fileName", Json.Str (FileName r))])).

Definition json_fileInfo (i : fileInfo) : Json.value :=
  Json.Obj [("filename", Json.Str (Filename i)); ("filetype", Json.Str (FileType i))].

Definition json_Marshal_listResponse (r : listResponse) : result string :=
  Ok (Json.render
        (Json.Obj [("directory", Json.Str (lrDirectory r));
                   ("fileInfos",
                    match FileInfos r with
                    | [] => Json.Null
                    | l => Json.Arr (map json_fileInfo l)
                    end)])).

(** The errors the binding returns, one per [fmt.Errorf] of the file, with
    the values that are formatted into the message and the wrapped cause. *)
Inductive BindingError : Type :=
| ErrUnsupportedOperation (op : OperationKind)
| ErrMergingMetadata (cause : error)
| ErrFilenameEmpty
| ErrDirAndFilename (rootPath filename : string) (cause : error)
| ErrGettingDirectory (directory : string) (cause : error)
| ErrConnection (server : string) (cause : error)
| ErrLogin (user : string) (cause : error)
| ErrDirectoryCreate (dir : string) (cause : error)
| ErrDirectoryChange (dir : string) (cause : error)
| ErrStore (cause : error)
| ErrDirectoryList (dir : string) (cause : error)
| ErrRetrieve (filename : string) (cause : error)
| ErrFileDelete (exactFilename : string) (cause : error)
| ErrQuit (cause : error)
| ErrListQuit (dir : string) (cause : error)
| ErrEncoding (cause : error).

(** What a handler returns: a response and a nil error, or a nil response
    and an error. *)
Inductive outcome (A : Type) : Type :=
| Return (a : A)
| Fail (e : BindingError).
Arguments Return {A} a.
Arguments Fail {A} e.

(** [req.Metadata[key]]: the empty string when the key is absent. *)
Definition metadata_value (req : InvokeRequest) (key : string) : string :=
  default EmptyString (Metadata req !! key).

Definition mergeWithRequestMetadata (metadata : ftpMetadata) (req : InvokeRequest)
  : ftpMetadata * option error :=
  let merged := metadata in
  let merged :=
    match Metadata req !! "Directory" with
    | Some val =>
        if negb (String.eqb val EmptyString) then
          {| RootPath := RootPath merged; Server_ := Server_ merged;
             Port := Port merged; User := User merged;
             Password := Password merged; Directory := val |}
        else merged
    | None => merged
    end in
  (merged, None).

Section PathResolution.
Variable vfs : Securejoin.VFS.

Definition getSecureDirAndFilename (rootPath filename : string)
  : result (string * string * string) :=
  match Securejoin.SecureJoin vfs "." rootPath with
  | Err e => Err e
  | Ok rootPath =>
      match Securejoin.SecureJoin vfs rootPath filename with
      | Err e => Err e
      | Ok absPath =>
          let dir := Filepath.Dir absPath in
          let exactFilename := Filepath.Base absPath in
          Ok (absPath, dir, exactFilename)
      end
  end.

Definition getSecureDir (rootPath directory : string) : result string :=
  match Securejoin.SecureJoin vfs "." rootPath with
  | Err e => Err e
  | Ok rootPath => Securejoin.SecureJoin vfs rootPath directory
  end.
End PathResolution.

(** *** Sessions

    A handler runs against a server and extends the trace of the calls made
    so far. *)
Definition Session (A : Type) : Type := list Event -> list Event * outcome A.

Definition ret {A} (a : A) : Session A := fun tr => (tr, Return a).

Definition fail {A} (e : BindingError) : Session A := fun tr => (tr, Fail e).

Definition bind {A B} (m : Session A) (k : A -> Session B) : Session B :=
  fun tr =>
    match m tr with
    | (tr', Return a) => k a tr'
    | (tr', Fail e) => (tr', Fail e)
    end.

#[global] Instance Session_ret : MRet Session := @ret.
#[global] Instance Session_bind : MBind Session := fun A B k m => bind m k.

(** [defer d] around the rest of a function: [d] runs when the rest
    returns, on every path, and its own result is dropped. *)
Definition defer {A B} (d : Session B) (body : Session A) : Session A :=
  fun tr =>
    let '(tr', r) := body tr in
    let '(tr'', _) := d tr' in
    (tr'', r).

(** The methods [create], [list], [get], [delete] and [Invoke] of [*Ftp]
    are written [Ftp_create], [Ftp_list], [Ftp_get], [Ftp_delete] and
    [Ftp_Invoke].  The context argument is not used by any of them. *)
Section Handlers.
Variable vfs : Securejoin.VFS.
Variable srv : Server.

(** A call on the client; the result is the error it returns. *)
Definition call (c : Command) : Session (option error) :=
  fun tr => let err := status srv tr c in (tr ++ [(c, err)], Return err).

(** [err = c...; if err != nil { return nil, wrap(err) }] *)
Definition check (c : Command) (wrap : error -> BindingError) : Session unit :=
  err ← call c;
  match err with
  | Some e => fail (wrap e)
  | None => ret tt
  end.

(** [c.List(dir)] *)
Definition call_List (dir : string) : Session (result (list Entry)) :=
  fun tr =>
    let err := status srv tr (List_ dir) in
    (tr ++ [(List_ dir, err)],
     Return match err with
            | Some e => Err e
            | None => Ok (entries srv tr dir)
            end).

(** [io.ReadAll(res)] *)
Definition call_ReadAll : Session (result string) :=
  fun tr =>
    let err := status srv tr ReadAll in
    (tr ++ [(ReadAll, err)],
     Return match err with
            | Some e => Err e
            | None => Ok (content srv tr)
            end).

Definition Ftp_create (f : Ftp) (req : InvokeRequest) : Session InvokeResponse :=
  let '(metadata_, err) := mergeWithRequestMetadata (metadata f) req in
  match err with
  | Some e => fail (ErrMergingMetadata e)
  | None =>
      let r := Data req in
      let filename := metadata_value req "Filename" in
      if String.eqb filename EmptyString then fail ErrFilenameEmpty
      else
        match getSecureDirAndFilename vfs (RootPath (metadata f)) filename with
        | Err e => fail (ErrDirAndFilename (RootPath (metadata f)) filename e)
        | Ok (absPath, dir, exactFilename) =>
            check (Dial (Server_ metadata_)) (ErrConnection (Server_ metadata_));;
            check (Login (User metadata_) (Password metadata_))
                  (ErrLogin (User metadata_));;
            err ← call (ChangeDir dir);
            match err with
            | Some _ =>
                check (MakeDir dir) (ErrDirectoryCreate dir);;
                check (ChangeDir dir) (ErrDirectoryChange dir)
            | None => ret tt
            end;;
            check (Stor exactFilename r) ErrStore;;
            check Quit ErrQuit;;
            match json_Marshal_createResponse {| FileName := absPath |} with
            | Err e => fail (ErrEncoding e)
            | Ok jsonResponse => ret {| RespData := jsonResponse |}
            end
        end
  end.

Definition Ftp_list (f : Ftp) (req : InvokeRequest) : Session InvokeResponse :=
  let '(metadata_, err) := mergeWithRequestMetadata (metadata f) req in
  match err with
  | Some e => fail (ErrMergingMetadata e)
  | None =>
      check (Dial (Server_ metadata_)) (ErrConnection (Server_ metadata_));;
      check (Login (User metadata_) (Password metadata_))
            (ErrLogin (User metadata_));;
      let directory := Directory metadata_ in
      match getSecureDir vfs (RootPath metadata_) directory with
      | Err e => fail (ErrGettingDirectory directory e)
      | Ok dir =>
          listing ← call_List dir;
          match listing with
          | Err e => fail (ErrDirectoryList dir e)
          | Ok entries_ =>
              check Quit (ErrListQuit dir);;
              let response :=
                {| lrDirectory := dir;
                   FileInfos :=
                     map (fun entry =>
                            {| Filename := Name entry;
                               FileType := EntryType_String (Type_ entry) |})
                         entries_ |} in
              match json_Marshal_listResponse response with
              | Err e => fail (ErrEncoding e)
              | Ok jsonResponse => ret {| RespData := jsonResponse |}
              end
          end
      end
  end.

Definition Ftp_get (f : Ftp) (req : InvokeRequest) : Session InvokeResponse :=
  let '(metadata_, err) := mergeWithRequestMetadata (metadata f) req in
  match err with
  | Some e => fail (ErrMergingMetadata e)
  | None =>
      let filename := metadata_value req "Filename" in
      if String.eqb filename EmptyString then fail ErrFilenameEmpty
      else
        match getSecureDirAndFilename vfs (RootPath (metadata f)) filename with
        | Err e => fail (ErrDirAndFilename (RootPath (metadata f)) filename e)
        | Ok (_, dir, exactFilename) =>
            check (Dial (Server_ metadata_)) (ErrConnection (Server_ metadata_));;
            check (Login (User metadata_) (Password metadata_))
                  (ErrLogin (User metadata_));;
            check (ChangeDir dir) (ErrDirectoryChange dir);;
            check (Retr exactFilename) (ErrRetrieve filename);;
            defer (call Close)
              (check Quit ErrQuit;;
               read ← call_ReadAll;
               match read with
               | Err e => fail (ErrRetrieve filename e)
               | Ok buf => ret {| RespData := buf |}
               end)
        end
  end.

Definition Ftp_delete (f : Ftp) (req : InvokeRequest) : Session InvokeResponse :=
  let '(metadata_, err) := mergeWithRequestMetadata (metadata f) req in
  match err with
  | Some e => fail (ErrMergingMetadata e)
  | None =>
      let filename := metadata_value req "Filename" in
      if String.eqb filename EmptyString then fail ErrFilenameEmpty
      else
        match getSecureDirAndFilename vfs (RootPath (metadata f)) filename with
        | Err e => fail (ErrDirAndFilename (RootPath (metadata f)) filename e)
        | Ok (_, dir, exactFilename) =>
            check (Dial (Server_ metadata_)) (ErrConnection (Server_ metadata_));;
            check (Login (User metadata_) (Password metadata_))
                  (ErrLogin (User metadata_));;
            check (ChangeDir dir) (ErrDirectoryChange dir);;
            check (Delete exactFilename) (ErrFileDelete exactFilename);;
            check Quit ErrQuit;;
            ret {| RespData := EmptyString |}
        end
  end.

Definition Ftp_Invoke (f : Ftp) (req : InvokeRequest) : Session InvokeResponse :=
  if String.eqb (Operation req) CreateOperation then Ftp_create f req
  else if String.eqb (Operation req) ListOperation then Ftp_list f req
  else if String.eqb (Operation req) GetOperation then Ftp_get f req
  else if String.eqb (Operation req) DeleteOperation then Ftp_delete f req
  else fail (ErrUnsupportedOperation (Operation req)).

Definition Ftp_Operations : list OperationKind :=
  [CreateOperation; ListOperation; GetOperation; DeleteOperation].

(** One invocation: the handler run on a fresh trace. *)
Definition run {A} (m : Session A) : list Event * outcome A := m [].
End Handlers.

(** *** Trace predicates *)

Definition is_login (ev : Event) : bool :=
  match fst ev with Login _ _ => true | _ => false end.

(** The client logged in at some point of the trace. *)
Definition logged_in (tr : list Event) : bool :=
  existsb (fun ev => is_login ev && succeeded ev) tr.

(** [Quit] was called at some point of the trace. *)
Definition quit_issued (tr : list Event) : bool := existsb is_quit tr.

(** The handler returned with the session still open: the client logged in
    and never called [Quit]. *)
Definition session_open (tr : list Event) : bool :=
  logged_in tr && negb (quit_issued tr).

(** The calls of the directory phase of a trace. *)
Definition directory_phase (tr : list Event) : list Event :=
  List.filter (fun ev => is_changedir ev || is_makedir ev) tr.

(** The errors a handler returns when a step between the login and [Quit]
    fails: path resolution in [list], a directory change or creation, a
    store, a listing or a delete.  ([ErrRetrieve] is returned both before
    and after [Quit] and is told apart by the trace.) *)
Definition after_login_failure (e : BindingError) : bool :=
  match e with
  | ErrGettingDirectory _ _ | ErrDirectoryCreate _ _ | ErrDirectoryChange _ _
  | ErrStore _ | ErrDirectoryList _ _ | ErrFileDelete _ _ => true
  | _ => false
  end.

Definition is_merging_error {A} (r : outcome A) : bool :=
  match r with
  | Fail (ErrMergingMetadata _) => true
  | _ => false
  end.

(** How a run treats the end of the session: a successful run has called
    [Quit] exactly once; a run that fails between the login and [Quit], or
    whose [Retr] fails, has not called it and leaves the session open. *)
Definition quit_discipline (tr : list Event) (r : outcome InvokeResponse) : Prop :=
  (forall resp, r = Return resp ->
                length (List.filter is_quit tr) = 1 /\ session_open tr = false) /\
  (forall e, r = Fail e -> after_login_failure e = true -> session_open tr = true) /\
  (forall name e, In (Retr name, Some e) tr -> session_open tr = true).

(** ** Sample configurations, servers and requests *)

Module Samples.

Definition ftp : Ftp :=
  {| metadata :=
       {| RootPath := "/srv/ftp/data"; Server_ := "ftp.example.com:21";
          Port := "21"; User := "dapr"; Password := "secret";
          Directory := "" |} |}.

Definition request (op : OperationKind) (data : string)
           (md : list (string * string)) : InvokeRequest :=
  {| Data := data; Metadata := list_to_map md; Operation := op |}.

(** A server on which every call succeeds. *)
Definition okServer : Server :=
  {| status := fun _ _ => None;
     entries := fun _ _ => [ {| Name := "out.txt"; Type_ := EntryTypeFile |} ];
     content := fun _ => "hello" |}.

(** A server on which the calls selected by [bad] fail. *)
Definition failing (bad : Command -> bool) : Server :=
  {| status := fun _ c => if bad c then Some (FtpError "550") else None;
     entries := fun _ _ => [];
     content := fun _ => "hello" |}.

Definition bad_ChangeDir (c : Command) : bool :=
  match c with ChangeDir _ => true | _ => false end.

Definition bad_ChangeDir_MakeDir (c : Command) : bool :=
  match c with ChangeDir _ | MakeDir _ => true | _ => false end.

Definition bad_Quit (c : Command) : bool :=
  match c with Quit => true | _ => false end.

Definition bad_Delete (c : Command) : bool :=
  match c with Delete _ => true | _ => false end.

(** A host with two symbolic links below [data]: [data/a] points to
    [/etc] and [data/loop] to itself. *)
Definition linkedVFS : Securejoin.VFS :=
  {| Securejoin.Lstat := fun p =>
       if String.eqb p "data/a" || String.eqb p "data/loop"
       then Securejoin.LstatInfo true else Securejoin.LstatNotExist;
     Securejoin.Readlink := fun p =>
       if String.eqb p "data/a" then Ok "/etc"
       else if String.eqb p "data/loop" then Ok "loop"
       else Err (OsError "readlink: invalid argument") |}.

(** A host on which [Lstat] fails. *)
Definition brokenVFS : Securejoin.VFS :=
  {| Securejoin.Lstat := fun _ => Securejoin.LstatError (OsError "permission denied");
     Securejoin.Readlink := fun _ => Err (OsError "permission denied") |}.

End Samples.

(** *** What a command does and which paths it carries *)

(** The calls that change the files of the server. *)
Definition modifies (c : Command) : bool :=
  match c with
  | MakeDir _ | Stor _ _ | Delete _ => true
  | _ => false
  end.

(** A directory argument without traversal: the path [.], or a relative
    path in which every element between two separators, as it is written,
    is normal.  So [a/../b], [a//b], [a/] and [/a] are all refused. *)
Definition safe_dir (p : string) : bool :=
  negb (Filepath.IsAbs p)
  && (String.eqb p Filepath.dot
      || forallb Filepath.normal (Filepath.split_sep p)).

(** A file argument that is a single element: no separator, not empty,
    not [..]. *)
Definition safe_name (n : string) : bool :=
  negb (Filepath.has_sep n) && negb (String.eqb n EmptyString)
  && negb (String.eqb n Filepath.dotdot).

Definition safe_command (c : Command) : bool :=
  match c with
  | ChangeDir p | MakeDir p | List_ p => safe_dir p
  | Stor n _ | Retr n | Delete n => safe_name n
  | Dial _ | Login _ _ | Quit | ReadAll | Close => true
  end.

(** The calls that add to the files of the server, and those that remove
    from them. *)
Definition creates (c : Command) : bool :=
  match c with
  | MakeDir _ | Stor _ _ => true
  | _ => false
  end.

Definition removes (c : Command) : bool :=
  match c with
  | Delete _ => true
  | _ => false
  end.

(** The calls that open a session. *)
Definition opens (c : Command) : bool :=
  match c with
  | Dial _ | Login _ _ => true
  | _ => false
  end.

(** The error that an error of the binding wraps ([fmt.Errorf] with [%w]),
    when there is one. *)
Definition cause (e : BindingError) : option error :=
  match e with
  | ErrUnsupportedOperation _ | ErrFilenameEmpty => None
  | ErrMergingMetadata c | ErrDirAndFilename _ _ c | ErrGettingDirectory _ c
  | ErrConnection _ c | ErrLogin _ c | ErrDirectoryCreate _ c
  | ErrDirectoryChange _ c | ErrStore c | ErrDirectoryList _ c
  | ErrRetrieve _ c | ErrFileDelete _ c | ErrQuit c | ErrListQuit _ c
  | ErrEncoding c => Some c
  end.

Definition is_close (c : Command) : bool :=
  match c with Close => true | _ => false end.

Definition is_ChangeDir (c : Command) : bool :=
  match c with ChangeDir _ => true | _ => false end.

(** ** Tactics for runs of the handlers *)

(** Unfolding of the session combinators. *)
Ltac session_unfold :=
  unfold run, check, call, call_List, call_ReadAll, defer,
    mbind, mret, Session_bind, Session_ret, bind, ret, fail in *.

(** Case analysis on the answer of the server to the earliest call whose
    answer is still unknown. *)
Ltac next_call :=
  match goal with
  | |- context [status ?s ?tr ?c] =>
      lazymatch tr with
      | context [status _ _ _] => fail
      | _ => destruct (status s tr c) eqn:?
      end
  end; cbn [app fst snd].

Ltac all_calls := cbn [app fst snd]; repeat next_call.

(** The three parts of [quit_discipline] on a run that is known. *)
Ltac solve_discipline :=
  unfold quit_discipline; split; [| split];
  [ intros resp Hr; try discriminate Hr; split; reflexivity
  | intros e' Hr Ha; try discriminate Hr; injection Hr as <-;
    try discriminate Ha; reflexivity
  | intros name' e' HIn; simpl in HIn;
    repeat (destruct HIn as [HIn | HIn]; try discriminate HIn);
    try contradiction; reflexivity ].


(** * The library models on examples *)

Example Clean_samples :
  map Filepath.Clean
      [""; "/"; "a//b/./c/.."; "/../a"; "../../a"; "a/../.."; "./srv/ftp"; "a/"]
  = ["."; "/"; "a/b"; "/a"; "../../a"; ".."; "srv/ftp"; "a"].
Proof. reflexivity. Qed.

Example Dir_Base_samples :
  map (fun p => (Filepath.Dir p, Filepath.Base p))
      ["a/b/c.txt"; "c.txt"; "/c.txt"; "a/b/"; ""; "/"; "."]
  = [("a/b", "c.txt"); (".", "c.txt"); ("/", "c.txt"); ("a/b", "b");
     (".", "."); ("/", "/"); (".", ".")].
Proof. reflexivity. Qed.

Example Join_samples :
  map Filepath.Join [["a"; "b"]; [""; "b"]; ["a"; ""]; [""; ""]; ["/a"; "../b"]]
  = ["a/b"; "b"; "a"; ""; "/b"].
Proof. reflexivity. Qed.

Example SecureJoin_samples :
  map (fun '(r, u) => Securejoin.SecureJoin Securejoin.emptyVFS r u)
      [(".", "/srv/ftp/data"); ("srv/ftp/data", "reports/out.txt");
       ("srv/ftp/data", "../../etc/passwd"); (".", ""); (".", "../..");
       ("data", "/abs//x/./y/"); ("", "a")]
  = [Ok "srv/ftp/data"; Ok "srv/ftp/data/reports/out.txt";
     Ok "srv/ftp/data/etc/passwd"; Ok "."; Ok "."; Ok "data/abs/x/y"; Ok "/a"].
Proof. vm_compute. reflexivity. Qed.

Example SecureJoin_links :
  map (Securejoin.SecureJoin Samples.linkedVFS "data")
      ["a/passwd"; "b/../a/x"; "loop/x"]
  = [Ok "data/etc/passwd"; Ok "data/etc/x"; Err (ELOOP "data/loop/x")].
Proof. vm_compute. reflexivity. Qed.

(** * Facts about the path functions *)

Section PathFacts.
Import Filepath.

Lemma append_cons (c : ascii) (a b : string) :
  String c a +:+ b = String c (a +:+ b).
Proof. reflexivity. Qed.

Lemma append_empty_l (b : string) : EmptyString +:+ b = b.
Proof. reflexivity. Qed.

Lemma append_empty_r (a : string) : a +:+ EmptyString = a.
Proof.
  induction a as [|x a IH]; [reflexivity |].
  now rewrite append_cons, IH.
Qed.

Lemma append_assoc (a b c : string) : (a +:+ b) +:+ c = a +:+ (b +:+ c).
Proof.
  induction a as [|x a IH]; [reflexivity |].
  now rewrite !append_cons, IH.
Qed.

Lemma split_sep_nonempty (s : string) : split_sep s <> [].
Proof.
  destruct s as [|c s]; simpl; [discriminate |].
  destruct (is_sep c); [discriminate |].
  destruct (split_sep s); discriminate.
Qed.

Lemma split_sep_app (a b : string) :
  split_sep (a +:+ String Separator b) = split_sep a ++ split_sep b.
Proof.
  induction a as [|c a IH].
  - reflexivity.
  - rewrite append_cons. simpl. rewrite IH. destruct (is_sep c); [reflexivity |].
    pose proof (split_sep_nonempty a) as Hne.
    destruct (split_sep a); [congruence | reflexivity].
Qed.

Lemma split_sep_free (s : string) : has_sep s = false -> split_sep s = [s].
Proof.
  induction s as [|c s IH]; simpl; [reflexivity |].
  destruct (is_sep c); simpl; [discriminate |].
  intros H. now rewrite (IH H).
Qed.

Lemma split_sep_elems_free (s : string) :
  Forall (fun e => has_sep e = false) (split_sep s).
Proof.
  induction s as [|c s IH]; simpl.
  - constructor; [reflexivity | constructor].
  - destruct (is_sep c) eqn:Hc.
    + constructor; [reflexivity | exact IH].
    + destruct (split_sep s) as [|h t].
      * constructor; [simpl; now rewrite Hc | constructor].
      * inversion IH; subst. constructor; [simpl; now rewrite Hc | assumption].
Qed.

Lemma normal_free (e : string) : normal e = true -> has_sep e = false.
Proof.
  unfold normal. intros H.
  destruct (has_sep e); [| reflexivity].
  rewrite !andb_false_r in H. discriminate.
Qed.

Lemma normal_not_abs (e x : string) : normal e = true -> IsAbs (e +:+ x) = false.
Proof.
  unfold normal. destruct e as [|c e]; [discriminate |].
  rewrite append_cons. simpl.
  destruct (is_sep c); simpl; [|reflexivity].
  rewrite !andb_false_r. discriminate.
Qed.

Lemma split_join (l : list string) :
  l <> [] -> Forall (fun e => normal e = true) l -> split_sep (join_sep l) = l.
Proof.
  induction l as [|e l IH]; [congruence |].
  intros _ Hall. inversion Hall as [|? ? He Hl]; subst.
  destruct l as [|e' l].
  - simpl. apply split_sep_free, normal_free, He.
  - change (join_sep (e :: e' :: l)) with (e +:+ String Separator (join_sep (e' :: l))).
    rewrite split_sep_app, IH by (congruence || assumption).
    rewrite split_sep_free by now apply normal_free.
    reflexivity.
Qed.

(** A normal element is pushed on the stack whatever the kind of path. *)
Lemma clean_step_normal (rooted : bool) (st : list string) (e : string) :
  normal e = true -> clean_step rooted st e = e :: st.
Proof.
  unfold normal, clean_step. intros H.
  destruct (String.eqb e EmptyString); [discriminate |].
  destruct (String.eqb e dot); [discriminate |].
  destruct (String.eqb e dotdot); [discriminate | reflexivity].
Qed.

Lemma fold_clean_normal (rooted : bool) (l st : list string) :
  Forall (fun e => normal e = true) l ->
  fold_left (clean_step rooted) l st = rev l ++ st.
Proof.
  revert st. induction l as [|e l IH]; intros st Hall; [reflexivity |].
  inversion Hall; subst. simpl.
  rewrite clean_step_normal, IH by assumption.
  now rewrite <- app_assoc.
Qed.

(** On a rooted path the stack only ever holds normal elements. *)
Lemma clean_step_rooted_normal (st : list string) (e : string) :
  has_sep e = false ->
  Forall (fun x => normal x = true) st ->
  Forall (fun x => normal x = true) (clean_step true st e).
Proof.
  intros Hfree Hst. unfold clean_step.
  destruct (String.eqb e EmptyString) eqn:E1; [assumption |].
  destruct (String.eqb e dot) eqn:E2; [assumption |].
  destruct (String.eqb e dotdot) eqn:E3.
  - destruct st as [|top below]; [constructor |].
    inversion Hst as [|? ? Htop Hbelow]; subst.
    destruct (String.eqb top dotdot) eqn:E4; [| assumption].
    apply String.eqb_eq in E4. subst top. discriminate.
  - constructor; [| assumption].
    unfold normal. now rewrite E1, E2, E3, Hfree.
Qed.

Lemma fold_clean_rooted_normal (l st : list string) :
  Forall (fun e => has_sep e = false) l ->
  Forall (fun x => normal x = true) st ->
  Forall (fun x => normal x = true) (fold_left (clean_step true) l st).
Proof.
  revert st. induction l as [|e l IH]; intros st Hl Hst; [assumption |].
  inversion Hl; subst. simpl. apply IH; [assumption |].
  now apply clean_step_rooted_normal.
Qed.

Lemma Forall_normal_rev (l : list string) :
  Forall (fun x => normal x = true) l -> Forall (fun x => normal x = true) (rev l).
Proof. apply List.Forall_rev. Qed.

(** Cleaning a rooted path gives the rooted path of normal elements. *)
Lemma Clean_rooted (q : string) :
  exists l, Forall (fun e => normal e = true) l /\
            Clean (String Separator q) = abs_path l.
Proof.
  exists (clean_elems true (split_sep (String Separator q))). split.
  - unfold clean_elems. apply Forall_normal_rev.
    apply fold_clean_rooted_normal; [apply split_sep_elems_free | constructor].
  - reflexivity.
Qed.

Lemma split_rel_path_fold (rooted : bool) (rs : list string) :
  Forall (fun e => normal e = true) rs ->
  fold_left (clean_step rooted) (split_sep (rel_path rs)) [] = rev rs.
Proof.
  intros Hrs. destruct rs as [|r rs]; [reflexivity |].
  unfold rel_path. rewrite split_join by (congruence || assumption).
  rewrite fold_clean_normal by assumption. apply app_nil_r.
Qed.

Lemma split_join_fold (rooted : bool) (l st : list string) :
  Forall (fun e => normal e = true) l ->
  fold_left (clean_step rooted) (split_sep (join_sep l)) st = rev l ++ st.
Proof.
  intros Hl. destruct l as [|e l]; [reflexivity |].
  rewrite split_join by (congruence || assumption).
  now apply fold_clean_normal.
Qed.

Lemma rel_path_not_abs (rs : list string) (x : string) :
  Forall (fun e => normal e = true) rs -> IsAbs (rel_path rs +:+ x) = false.
Proof.
  intros Hrs. destruct rs as [|r rs]; [reflexivity |].
  inversion Hrs; subst. unfold rel_path.
  destruct rs as [|r' rs].
  - now apply normal_not_abs.
  - change (join_sep (r :: r' :: rs)) with (r +:+ String Separator (join_sep (r' :: rs))).
    rewrite append_assoc. now apply normal_not_abs.
Qed.

(** The last step of [SecureJoin]: a clean relative root followed by a
    clean rooted path is the relative path of the elements of both. *)
Lemma Clean_rel_abs (rs l : list string) :
  Forall (fun e => normal e = true) rs ->
  Forall (fun e => normal e = true) l ->
  Clean (rel_path rs +:+ abs_path l) = rel_path (rs ++ l).
Proof.
  intros Hrs Hl. unfold Clean, abs_path.
  rewrite rel_path_not_abs by assumption.
  unfold clean_elems. rewrite split_sep_app, fold_left_app.
  rewrite split_rel_path_fold, split_join_fold by assumption.
  now rewrite <- rev_app_distr, rev_involutive.
Qed.

Lemma path_elems_rel_path (rs : list string) :
  Forall (fun e => normal e = true) rs -> path_elems (rel_path rs) = rs.
Proof.
  intros Hrs. unfold path_elems, clean_elems.
  rewrite split_rel_path_fold by assumption. apply rev_involutive.
Qed.

Lemma rel_path_is_rel (rs : list string) :
  Forall (fun e => normal e = true) rs -> IsAbs (rel_path rs) = false.
Proof.
  intros Hrs. pose proof (rel_path_not_abs rs EmptyString Hrs) as H.
  now rewrite append_empty_r in H.
Qed.
End PathFacts.

(** * Facts about [SecureJoin] *)

Section SecureJoinFacts.
Import Filepath Securejoin.

(** Whatever the loop resolves, the result is the root followed by a
    rooted clean path. *)
Lemma SecureJoin_shape (vfs : VFS) (rs : list string) (unsafePath r : string) :
  Forall (fun e => normal e = true) rs ->
  SecureJoin vfs (rel_path rs) unsafePath = Ok r ->
  exists l, Forall (fun e => normal e = true) l /\ r = rel_path (rs ++ l).
Proof.
  intros Hrs. unfold SecureJoin, SecureJoinVFS.
  destruct (walk vfs (rel_path rs) maxLinks (ends_with_sep unsafePath)
                 EmptyString (components unsafePath))
    as [path | e]; [| discriminate].
  intros [= <-].
  destruct (Clean_rooted path) as (l & Hl & E).
  exists l. split; [assumption |].
  change ("/" +:+ path) with (String Separator path).
  rewrite E. now apply Clean_rel_abs.
Qed.

(** One iteration of the loop, with a budget left. *)
Lemma walk_cons (vfs : VFS) (root : string) (budget : nat) (trailing : bool)
      (path p : string) (rest : list string) :
  walk vfs root (S budget) trailing path (p :: rest) =
  let cleanP := Clean ("/" +:+ path +:+ p) in
  if String.eqb cleanP "/"
  then walk vfs root (S budget) trailing EmptyString rest
  else
    let fullP := Clean (root +:+ cleanP) in
    match Lstat vfs fullP with
    | LstatError e => Err e
    | LstatNotExist | LstatInfo false =>
        walk vfs root (S budget) trailing (path +:+ p +:+ "/") rest
    | LstatInfo true =>
        match Readlink vfs fullP with
        | Err e => Err e
        | Ok dest =>
            walk vfs root budget
                 (match rest with [] => true | _ :: _ => trailing end)
                 (if IsAbs dest then EmptyString else path)
                 (split_sep dest ++ rest)
        end
    end.
Proof. reflexivity. Qed.

(** Without links, and with a budget left, the loop reads every element
    and returns. *)
Lemma walk_no_links (vfs : VFS) (root : string) (budget : nat) (trailing : bool) :
  no_links vfs ->
  forall unsafe path,
    exists path', walk vfs root (S budget) trailing path unsafe = Ok path'.
Proof.
  intros Hvfs. induction unsafe as [|p rest IH]; intros path.
  - exists path. reflexivity.
  - rewrite walk_cons. cbv zeta.
    destruct (String.eqb (Clean ("/" +:+ path +:+ p)) "/").
    + apply (IH EmptyString).
    + destruct (Hvfs (Clean (root +:+ Clean ("/" +:+ path +:+ p)))) as [-> | ->];
        apply (IH (path +:+ p +:+ "/")).
Qed.

Lemma SecureJoin_no_links (vfs : VFS) (root unsafePath : string) :
  no_links vfs -> exists r, SecureJoin vfs root unsafePath = Ok r.
Proof.
  intros Hvfs. unfold SecureJoin, SecureJoinVFS, maxLinks.
  destruct (walk_no_links vfs root 255 (ends_with_sep unsafePath) Hvfs
              (components unsafePath) EmptyString)
    as [path ->].
  eexists. reflexivity.
Qed.

Lemma emptyVFS_no_links : no_links emptyVFS.
Proof. intros p. now left. Qed.
End SecureJoinFacts.

(** * Path resolution stays inside the sanitised root *)

Section Containment.
Import Filepath Securejoin.

Lemma contained_rel_path (rs l : list string) :
  Forall (fun e => normal e = true) rs ->
  Forall (fun e => normal e = true) l ->
  contained (rel_path rs) (rel_path (rs ++ l)).
Proof.
  intros Hrs Hl.
  assert (Hall : Forall (fun e => normal e = true) (rs ++ l))
    by (apply List.Forall_app; now split).
  split.
  - now rewrite !rel_path_is_rel.
  - exists l. split; [assumption |].
    now rewrite !path_elems_rel_path.
Qed.

Lemma secure_join_twice (vfs : VFS) (rootPath untrusted root' p : string) :
  SecureJoin vfs "." rootPath = Ok root' ->
  SecureJoin vfs root' untrusted = Ok p ->
  contained root' p /\ IsAbs p = false /\
  Forall (fun e => normal e = true) (path_elems p).
Proof.
  intros H1 H2.
  apply (SecureJoin_shape vfs []) in H1; [| constructor].
  destruct H1 as (rs & Hrs & ->). simpl in H2.
  apply SecureJoin_shape in H2; [| assumption].
  destruct H2 as (l & Hl & ->).
  assert (Hall : Forall (fun e => normal e = true) (rs ++ l))
    by (apply List.Forall_app; now split).
  split; [now apply contained_rel_path |].
  split; [now apply rel_path_is_rel |].
  now rewrite path_elems_rel_path.
Qed.
End Containment.

Section LinkFree.
Import Filepath Securejoin.

(** Prepending the target of a link to the unread path, as the loop does
    with [dest + "/" + unsafePath], prepends the elements of the target. *)
Lemma components_prepend (dest unsafePath : string) :
  components (dest +:+ String Separator unsafePath)
  = split_sep dest ++ components unsafePath.
Proof.
  induction dest as [|c dest IH]; [reflexivity |].
  rewrite append_cons. simpl. rewrite IH.
  destruct (is_sep c); [reflexivity |].
  pose proof (split_sep_nonempty dest) as Hne.
  destruct (split_sep dest); [congruence | reflexivity].
Qed.

Lemma components_free (s : string) :
  s <> EmptyString -> has_sep s = false -> components s = [s].
Proof.
  induction s as [|c s IH]; [congruence |]. intros _. simpl.
  destruct (is_sep c); simpl; [discriminate |]. intros Hfree.
  destruct s as [|c' s]; [reflexivity |].
  rewrite IH by (congruence || assumption). reflexivity.
Qed.

Lemma components_join (l : list string) :
  l <> [] -> Forall (fun e => normal e = true) l -> components (join_sep l) = l.
Proof.
  induction l as [|e l IH]; [congruence |].
  intros _ Hall. inversion Hall as [|? ? He Hl]; subst.
  assert (Hne : e <> EmptyString) by (intros ->; discriminate He).
  destruct l as [|e' l].
  - simpl. apply components_free; [assumption | now apply normal_free].
  - change (join_sep (e :: e' :: l)) with (e +:+ String Separator (join_sep (e' :: l))).
    rewrite components_prepend, IH by (congruence || assumption).
    rewrite split_sep_free by now apply normal_free.
    reflexivity.
Qed.

(** On a host without links the loop never looks at what [Lstat] says. *)
Lemma walk_link_free (vfs : VFS) (root : string) (budget : nat) (trailing : bool) :
  no_links vfs ->
  forall unsafe path,
    walk vfs root (S budget) trailing path unsafe
    = walk emptyVFS root (S budget) trailing path unsafe.
Proof.
  intros Hvfs. induction unsafe as [|p rest IH]; intros path; [reflexivity |].
  rewrite !walk_cons. cbv zeta.
  destruct (String.eqb (Clean ("/" +:+ path +:+ p)) "/"); [apply IH |].
  destruct (Hvfs (Clean (root +:+ Clean ("/" +:+ path +:+ p)))) as [-> | ->];
    simpl; apply IH.
Qed.

Lemma SecureJoin_link_free (vfs : VFS) (root unsafePath : string) :
  no_links vfs ->
  SecureJoin vfs root unsafePath = SecureJoin emptyVFS root unsafePath.
Proof.
  intros Hvfs. unfold SecureJoin, SecureJoinVFS, maxLinks.
  now rewrite (walk_link_free vfs root 255 (ends_with_sep unsafePath) Hvfs).
Qed.

Lemma getSecureDirAndFilename_link_free (vfs : VFS) (rootPath filename : string) :
  no_links vfs ->
  getSecureDirAndFilename vfs rootPath filename
  = getSecureDirAndFilename emptyVFS rootPath filename.
Proof.
  intros Hvfs. unfold getSecureDirAndFilename.
  rewrite (SecureJoin_link_free vfs) by assumption.
  destruct (SecureJoin emptyVFS "." rootPath); [| reflexivity].
  now rewrite (SecureJoin_link_free vfs) by assumption.
Qed.

Lemma getSecureDir_link_free (vfs : VFS) (rootPath directory : string) :
  no_links vfs ->
  getSecureDir vfs rootPath directory = getSecureDir emptyVFS rootPath directory.
Proof.
  intros Hvfs. unfold getSecureDir.
  rewrite (SecureJoin_link_free vfs) by assumption.
  destruct (SecureJoin emptyVFS "." rootPath); [| reflexivity].
  now rewrite (SecureJoin_link_free vfs) by assumption.
Qed.
End LinkFree.

(** ** A clean relative root is kept *)

Section CleanRoot.
Import Filepath Securejoin.

Lemma buffer_join (done : list string) (p : string) :
  buffer done +:+ p = join_sep (done ++ [p]).
Proof.
  induction done as [|d done IH]; [reflexivity |].
  cbn [buffer]. rewrite !append_assoc, IH.
  destruct done; reflexivity.
Qed.

Lemma buffer_app (done : list string) (p : string) :
  buffer (done ++ [p]) = buffer done +:+ p +:+ "/".
Proof.
  induction done as [|d done IH]; cbn [buffer app].
  - now rewrite append_empty_r.
  - now rewrite IH, !append_assoc.
Qed.

Lemma Clean_abs_join (l : list string) :
  Forall (fun e => normal e = true) l ->
  Clean (String Separator (join_sep l)) = abs_path l.
Proof.
  intros Hl. unfold Clean. cbn [IsAbs]. unfold is_sep at 1. cbn [Ascii.eqb].
  change (Ascii.eqb Separator Separator) with true. cbv iota.
  unfold clean_elems. cbn [split_sep]. change (is_sep Separator) with true.
  cbv iota. cbn [fold_left]. unfold clean_step at 2. cbn [String.eqb].
  rewrite split_join_fold by assumption.
  now rewrite app_nil_r, rev_involutive.
Qed.

Lemma abs_path_not_root (l : list string) (p : string) :
  normal p = true -> String.eqb (abs_path (l ++ [p])) "/" = false.
Proof.
  intros Hp. unfold abs_path. cbn [String.eqb].
  change (Ascii.eqb Separator "/") with true. cbv iota.
  destruct l as [|x l].
  - destruct p; [discriminate | reflexivity].
  - cbn [app join_sep]. destruct (l ++ [p]) eqn:E.
    + destruct l; discriminate.
    + destruct x; reflexivity.
Qed.

(** The loop copies normal elements to the buffer one by one. *)
Lemma walk_normal (root : string) (budget : nat) (trailing : bool)
      (rest : list string) :
  Forall (fun e => normal e = true) rest ->
  forall done,
    Forall (fun e => normal e = true) done ->
    walk emptyVFS root (S budget) trailing (buffer done) rest
    = Ok (buffer (done ++ rest)).
Proof.
  induction 1 as [|p rest Hp Hrest IH]; intros done Hdone.
  - now rewrite app_nil_r.
  - assert (Hall : Forall (fun e => normal e = true) (done ++ [p]))
      by (apply List.Forall_app; split; [assumption | now constructor]).
    rewrite walk_cons. cbv zeta.
    change ("/" +:+ buffer done +:+ p) with (String Separator (buffer done +:+ p)).
    rewrite buffer_join, Clean_abs_join, abs_path_not_root by assumption.
    cbn [Lstat emptyVFS].
    rewrite <- buffer_app, IH by assumption.
    now rewrite <- app_assoc.
Qed.

Lemma Clean_abs_buffer (rs : list string) :
  Forall (fun e => normal e = true) rs ->
  Clean (String Separator (buffer rs)) = abs_path rs.
Proof.
  intros Hrs. destruct rs as [|r rs]; [reflexivity |].
  assert (E : buffer (r :: rs) = join_sep (r :: rs) +:+ String Separator EmptyString).
  { clear Hrs. revert r. induction rs as [|r' rs IH]; intros r; [reflexivity |].
    cbn [buffer] in *. rewrite IH.
    change (join_sep (r :: r' :: rs))
      with (r +:+ String Separator (join_sep (r' :: rs))).
    now rewrite !append_assoc. }
  rewrite E. unfold Clean. cbn [IsAbs]. change (is_sep Separator) with true.
  cbv iota. unfold clean_elems. cbn [split_sep].
  change (is_sep Separator) with true. cbv iota.
  rewrite split_sep_app, split_join by (congruence || assumption).
  cbn [fold_left]. change (clean_step true [] EmptyString) with (@nil string).
  rewrite fold_left_app, (fold_clean_normal true (r :: rs)) by assumption.
  cbn [split_sep fold_left]. unfold clean_step. cbn [String.eqb].
  now rewrite app_nil_r, rev_involutive.
Qed.

(** On a host without links, a root that is already a clean relative path
    is its own sanitised root. *)
Lemma SecureJoin_clean_root (vfs : VFS) (rs : list string) :
  no_links vfs ->
  Forall (fun e => normal e = true) rs ->
  SecureJoin vfs "." (rel_path rs) = Ok (rel_path rs).
Proof.
  intros Hvfs Hrs. rewrite SecureJoin_link_free by assumption.
  destruct rs as [|r rs]; [vm_compute; reflexivity |].
  unfold SecureJoin, SecureJoinVFS, maxLinks, rel_path.
  rewrite components_join by (congruence || assumption).
  pose proof (walk_normal "." 255 (ends_with_sep (join_sep (r :: rs)))
                (r :: rs) Hrs [] (List.Forall_nil _)) as Hwalk.
  cbn [buffer app] in Hwalk. rewrite Hwalk.
  change ("/" +:+ r +:+ "/" +:+ buffer rs)
    with (String Separator (buffer (r :: rs))).
  rewrite Clean_abs_buffer by assumption.
  f_equal. apply (Clean_rel_abs [] (r :: rs)); [constructor | assumption].
Qed.
End CleanRoot.

(** C1, as amended.  Whatever the host's file system, the root and the
    untrusted name, a path returned by [getSecureDirAndFilename] or by
    [getSecureDir] is contained in the sanitised root, that is in the
    configured root itself secure-joined onto [.]: the result is a relative
    path without any [..] whose elements extend those of the sanitised
    root.  On a host without symbolic links both functions do return a
    path, and a configured root that is already a clean relative path is
    its own sanitised root. *)
Theorem secure_paths_stay_in_sanitised_root
        (vfs : Securejoin.VFS) (rootPath untrusted : string) :
  (forall absPath dir exactFilename,
      getSecureDirAndFilename vfs rootPath untrusted
      = Ok (absPath, dir, exactFilename) ->
      exists root',
        Securejoin.SecureJoin vfs "." rootPath = Ok root' /\
        Filepath.contained root' absPath /\
        Filepath.IsAbs absPath = false /\
        Forall (fun e => Filepath.normal e = true) (Filepath.path_elems absPath) /\
        dir = Filepath.Dir absPath /\ exactFilename = Filepath.Base absPath)
  /\
  (forall secureDirectory,
      getSecureDir vfs rootPath untrusted = Ok secureDirectory ->
      exists root',
        Securejoin.SecureJoin vfs "." rootPath = Ok root' /\
        Filepath.contained root' secureDirectory /\
        Filepath.IsAbs secureDirectory = false /\
        Forall (fun e => Filepath.normal e = true)
               (Filepath.path_elems secureDirectory))
  /\
  (Securejoin.no_links vfs ->
   (exists r, getSecureDirAndFilename vfs rootPath untrusted = Ok r) /\
   (exists d, getSecureDir vfs rootPath untrusted = Ok d) /\
   (forall rs, Forall (fun e => Filepath.normal e = true) rs ->
               rootPath = Filepath.rel_path rs ->
               Securejoin.SecureJoin vfs "." rootPath = Ok rootPath)).
Proof.
  split; [| split].
  - intros absPath dir exactFilename. unfold getSecureDirAndFilename.
    destruct (Securejoin.SecureJoin vfs "." rootPath) as [root' |] eqn:E1;
      [| discriminate].
    destruct (Securejoin.SecureJoin vfs root' untrusted) as [p |] eqn:E2;
      [| discriminate].
    intros [= <- <- <-]. exists root'.
    destruct (secure_join_twice vfs rootPath untrusted root' p E1 E2)
      as (Hc & Hrel & Hnorm).
    repeat split; assumption || reflexivity || apply Hc.
  - intros d. unfold getSecureDir.
    destruct (Securejoin.SecureJoin vfs "." rootPath) as [root' |] eqn:E1;
      [| discriminate].
    intros E2. exists root'.
    destruct (secure_join_twice vfs rootPath untrusted root' d E1 E2)
      as (Hc & Hrel & Hnorm).
    repeat split; assumption || apply Hc.
  - intros Hvfs.
    destruct (SecureJoin_no_links vfs "." rootPath Hvfs) as [root' E].
    destruct (SecureJoin_no_links vfs root' untrusted Hvfs) as [p E'].
    unfold getSecureDirAndFilename, getSecureDir.
    split; [| split].
    + rewrite E, E'. eexists; reflexivity.
    + rewrite E, E'. eexists; reflexivity.
    + intros rs Hrs ->. now apply SecureJoin_clean_root.
Qed.

Lemma secure_paths_stay_in_sanitised_root_witness :
  Filepath.contained "srv/ftp/data" "srv/ftp/data/etc/passwd".
Proof.
  destruct (secure_paths_stay_in_sanitised_root
              Securejoin.emptyVFS "/srv/ftp/data" "../../etc/passwd") as [H _].
  destruct (H "srv/ftp/data/etc/passwd" "srv/ftp/data/etc" "passwd")
    as (root' & E & Hc & _).
  - vm_compute. reflexivity.
  - vm_compute in E. injection E as <-. exact Hc.
Defined.

(** C1, as the claim states it, fails: an absolute root is not kept.  With
    the root [/srv/ftp/data] the resolved path is the relative path
    [srv/ftp/data/reports/out.txt], which is not inside [/srv/ftp/data]. *)
Lemma secure_paths_leave_absolute_root :
  ~ (forall vfs rootPath untrusted absPath dir exactFilename,
        getSecureDirAndFilename vfs rootPath untrusted
        = Ok (absPath, dir, exactFilename) ->
        Filepath.contained rootPath absPath).
Proof.
  intros H.
  assert (E : getSecureDirAndFilename Securejoin.emptyVFS
                "/srv/ftp/data" "reports/out.txt"
              = Ok ("srv/ftp/data/reports/out.txt", "srv/ftp/data/reports", "out.txt"))
    by (vm_compute; reflexivity).
  apply H in E. destruct E as [Habs _].
  vm_compute in Habs. discriminate.
Qed.

(** * The configuration merge *)

(** C8.  [mergeWithRequestMetadata] replaces the directory, and nothing
    else, and only when the request carries a non-empty [Directory] value:
    the root path, server, port, user and password of the result are those
    of the static configuration, and an absent or empty override leaves the
    static directory in place.  (Being a function of its two arguments, the
    merge has no effect on either.) *)
Theorem mergeWithRequestMetadata_frame (static : ftpMetadata) (req : InvokeRequest) :
  let merged := fst (mergeWithRequestMetadata static req) in
  RootPath merged = RootPath static /\
  Server_ merged = Server_ static /\
  Port merged = Port static /\
  User merged = User static /\
  Password merged = Password static /\
  Directory merged =
    match Metadata req !! "Directory" with
    | Some val => if String.eqb val EmptyString then Directory static else val
    | None => Directory static
    end.
Proof.
  unfold mergeWithRequestMetadata. simpl.
  destruct (Metadata req !! "Directory") as [val |]; [| repeat split].
  destruct (String.eqb val EmptyString); repeat split.
Qed.

Lemma mergeWithRequestMetadata_nil (static : ftpMetadata) (req : InvokeRequest) :
  mergeWithRequestMetadata static req
  = (fst (mergeWithRequestMetadata static req), None).
Proof. reflexivity. Qed.

(** * The handlers *)

(** C10.  [mergeWithRequestMetadata] always returns a nil error, so that no
    handler, and no invocation of the binding, ever returns the
    error-merging-metadata error. *)
Theorem merging_error_unreachable :
  (forall static req, snd (mergeWithRequestMetadata static req) = None) /\
  (forall vfs srv f req,
      is_merging_error (snd (run (Ftp_create vfs srv f req))) = false /\
      is_merging_error (snd (run (Ftp_list vfs srv f req))) = false /\
      is_merging_error (snd (run (Ftp_get vfs srv f req))) = false /\
      is_merging_error (snd (run (Ftp_delete vfs srv f req))) = false /\
      is_merging_error (snd (run (Ftp_Invoke vfs srv f req))) = false).
Proof.
  split; [reflexivity |].
  intros vfs srv f req.
  assert (Hc : is_merging_error (snd (run (Ftp_create vfs srv f req))) = false).
  { unfold Ftp_create. rewrite mergeWithRequestMetadata_nil.
    destruct (String.eqb (metadata_value req "Filename") EmptyString);
      [reflexivity |].
    destruct (getSecureDirAndFilename vfs _ _) as [[[absPath dir] name] | e];
      [| reflexivity].
    session_unfold. all_calls; reflexivity. }
  assert (Hl : is_merging_error (snd (run (Ftp_list vfs srv f req))) = false).
  { unfold Ftp_list. rewrite mergeWithRequestMetadata_nil.
    session_unfold. all_calls; try reflexivity.
    destruct (getSecureDir vfs _ _) as [dir | e]; [| reflexivity].
    all_calls; reflexivity. }
  assert (Hg : is_merging_error (snd (run (Ftp_get vfs srv f req))) = false).
  { unfold Ftp_get. rewrite mergeWithRequestMetadata_nil.
    destruct (String.eqb (metadata_value req "Filename") EmptyString);
      [reflexivity |].
    destruct (getSecureDirAndFilename vfs _ _) as [[[absPath dir] name] | e];
      [| reflexivity].
    session_unfold. all_calls; reflexivity. }
  assert (Hd : is_merging_error (snd (run (Ftp_delete vfs srv f req))) = false).
  { unfold Ftp_delete. rewrite mergeWithRequestMetadata_nil.
    destruct (String.eqb (metadata_value req "Filename") EmptyString);
      [reflexivity |].
    destruct (getSecureDirAndFilename vfs _ _) as [[[absPath dir] name] | e];
      [| reflexivity].
    session_unfold. all_calls; reflexivity. }
  repeat split; try assumption.
  unfold Ftp_Invoke.
  repeat (match goal with |- context [if ?b then _ else _] => destruct b end);
    try assumption.
  reflexivity.
Qed.

(** ** list *)

(** C5, as amended.  The list handler merges the directory override into
    the configuration, dials, logs in, and only then resolves the
    directory; it never changes into the directory and never creates one,
    but passes the resolved directory to [List]; it calls [Quit] after a
    successful listing only.  Every run is one of the six below. *)
Theorem list_steps (vfs : Securejoin.VFS) (srv : Server) (f : Ftp) (req : InvokeRequest) :
  let md := fst (mergeWithRequestMetadata (metadata f) req) in
  let dial := Dial (Server_ md) in
  let login := Login (User md) (Password md) in
  let outcome_ := run (Ftp_list vfs srv f req) in
  (exists e,
      outcome_ = ([(dial, Some e)], Fail (ErrConnection (Server_ md) e)))
  \/
  (exists e,
      outcome_ = ([(dial, None); (login, Some e)], Fail (ErrLogin (User md) e)))
  \/
  (exists e,
      getSecureDir vfs (RootPath md) (Directory md) = Err e /\
      outcome_ = ([(dial, None); (login, None)],
                  Fail (ErrGettingDirectory (Directory md) e)))
  \/
  (exists dir,
      getSecureDir vfs (RootPath md) (Directory md) = Ok dir /\
      ((exists e,
           outcome_ = ([(dial, None); (login, None); (List_ dir, Some e)],
                       Fail (ErrDirectoryList dir e)))
       \/
       (exists e,
           outcome_ = ([(dial, None); (login, None); (List_ dir, None);
                        (Quit, Some e)],
                       Fail (ErrListQuit dir e)))
       \/
       (exists jsonResponse,
           json_Marshal_listResponse
             {| lrDirectory := dir;
                FileInfos :=
                  map (fun entry =>
                         {| Filename := Name entry;
                            FileType := EntryType_String (Type_ entry) |})
                      (entries srv [(dial, None); (login, None)] dir) |}
           = Ok jsonResponse /\
           outcome_ = ([(dial, None); (login, None); (List_ dir, None);
                        (Quit, None)],
                       Return {| RespData := jsonResponse |})))).
Proof.
  cbv zeta. unfold Ftp_list. rewrite mergeWithRequestMetadata_nil.
  set (md := fst (mergeWithRequestMetadata (metadata f) req)).
  session_unfold. cbn [app fst snd].
  next_call; [left; eauto |].
  next_call; [right; left; eauto |].
  destruct (getSecureDir vfs (RootPath md) (Directory md)) as [dir | e] eqn:Edir.
  - right; right; right. exists dir. split; [reflexivity |].
    next_call; [left; eauto |].
    next_call; [right; left; eauto |].
    right; right. eexists. split; reflexivity.
  - right; right; left. exists e. split; reflexivity.
Qed.

(** C5, as the claim states it, fails twice.  A successful listing does not
    go through a change of directory: its calls are [Dial], [Login], [List]
    and [Quit].  And the directory is resolved after the login, not before
    the connection is opened: when the resolution fails, the client has
    already dialled and logged in. *)
Lemma list_does_not_change_directory :
  ~ (forall vfs srv f req tr resp,
        run (Ftp_list vfs srv f req) = (tr, Return resp) ->
        exists addr user password dir,
          commands tr = [Dial addr; Login user password; ChangeDir dir;
                         List_ dir; Quit])
  /\
  ~ (forall vfs srv f req e,
        getSecureDir vfs
          (RootPath (fst (mergeWithRequestMetadata (metadata f) req)))
          (Directory (fst (mergeWithRequestMetadata (metadata f) req))) = Err e ->
        fst (run (Ftp_list vfs srv f req)) = []).
Proof.
  split.
  - intros H.
    destruct (H Securejoin.emptyVFS Samples.okServer Samples.ftp
                (Samples.request ListOperation "" [("Directory", "reports")])
                _ _ eq_refl)
      as (addr & user & password & dir & E).
    vm_compute in E. discriminate.
  - intros H.
    specialize (H Samples.brokenVFS Samples.okServer Samples.ftp
                  (Samples.request ListOperation "" [("Directory", "reports")])
                  (OsError "permission denied") eq_refl).
    vm_compute in H. discriminate.
Qed.

(** ** create *)

(** C4, as amended.  In the create handler the calls of the directory
    phase are one of four sequences.  When the initial change of directory
    succeeds, no directory is created.  When it fails, exactly one creation
    is attempted; if the creation fails, the handler returns the
    directory-create error there, without retrying the change; if it
    succeeds, the change is retried exactly once, and a failure of the
    retry makes the handler return the directory-change error there.  (The
    phase is empty when the handler stops before it.) *)
Theorem create_directory_phase
        (vfs : Securejoin.VFS) (srv : Server) (f : Ftp) (req : InvokeRequest) :
  let tr := fst (run (Ftp_create vfs srv f req)) in
  let r := snd (run (Ftp_create vfs srv f req)) in
  directory_phase tr = []
  \/
  exists absPath dir exactFilename,
    getSecureDirAndFilename vfs (RootPath (metadata f)) (metadata_value req "Filename")
    = Ok (absPath, dir, exactFilename) /\
    (directory_phase tr = [(ChangeDir dir, None)]
     \/
     (exists e1 e2 before,
         directory_phase tr = [(ChangeDir dir, Some e1); (MakeDir dir, Some e2)] /\
         tr = before ++ [(ChangeDir dir, Some e1); (MakeDir dir, Some e2)] /\
         r = Fail (ErrDirectoryCreate dir e2))
     \/
     (exists e1 e2 before,
         directory_phase tr
         = [(ChangeDir dir, Some e1); (MakeDir dir, None); (ChangeDir dir, Some e2)] /\
         tr = before ++ [(ChangeDir dir, Some e1); (MakeDir dir, None);
                         (ChangeDir dir, Some e2)] /\
         r = Fail (ErrDirectoryChange dir e2))
     \/
     (exists e1,
         directory_phase tr
         = [(ChangeDir dir, Some e1); (MakeDir dir, None); (ChangeDir dir, None)])).
Proof.
  cbv zeta. unfold Ftp_create. rewrite mergeWithRequestMetadata_nil.
  set (md := fst (mergeWithRequestMetadata (metadata f) req)).
  cbv iota beta.
  destruct (String.eqb (metadata_value req "Filename") EmptyString);
    [left; reflexivity |].
  destruct (getSecureDirAndFilename vfs _ _) as [[[absPath dir] name] | e] eqn:Eres;
    [| left; reflexivity].
  session_unfold. cbn [app fst snd].
  next_call; [left; reflexivity |].
  next_call; [left; reflexivity |].
  right. exists absPath, dir, name. split; [reflexivity |].
  next_call.
  - next_call.
    + right; left. eexists _, _, [_; _]. repeat split; reflexivity.
    + next_call.
      * right; right; left. eexists _, _, [_; _]. repeat split; reflexivity.
      * right; right; right. eexists.
        next_call; [reflexivity |]. next_call; reflexivity.
  - left. next_call; [reflexivity |]. next_call; reflexivity.
Qed.

(** C4, as the claim states it, fails: a failed change of directory is not
    always followed by a retry.  When the creation of the directory fails
    too, the handler returns without changing directory again. *)
Lemma create_no_retry_after_failed_creation :
  ~ (forall vfs srv f req c e,
        List.find is_changedir (fst (run (Ftp_create vfs srv f req)))
        = Some (c, Some e) ->
        length (List.filter is_makedir (fst (run (Ftp_create vfs srv f req)))) = 1 /\
        length (List.filter is_changedir (fst (run (Ftp_create vfs srv f req)))) = 2).
Proof.
  intros H.
  destruct (H Securejoin.emptyVFS (Samples.failing Samples.bad_ChangeDir_MakeDir)
              Samples.ftp
              (Samples.request CreateOperation "hello" [("Filename", "reports/out.txt")])
              (ChangeDir "srv/ftp/data/reports") (FtpError "550") eq_refl)
    as [_ E].
  vm_compute in E. discriminate.
Qed.

(** ** The end of the session *)

Lemma create_quit_discipline vfs srv f req :
  quit_discipline (fst (run (Ftp_create vfs srv f req)))
                  (snd (run (Ftp_create vfs srv f req))).
Proof.
  unfold Ftp_create. rewrite mergeWithRequestMetadata_nil. cbv iota beta.
  destruct (String.eqb (metadata_value req "Filename") EmptyString);
    [solve_discipline |].
  destruct (getSecureDirAndFilename vfs _ _) as [[[absPath dir] name] | e];
    [| solve_discipline].
  session_unfold. all_calls; solve_discipline.
Qed.

Lemma list_quit_discipline vfs srv f req :
  quit_discipline (fst (run (Ftp_list vfs srv f req)))
                  (snd (run (Ftp_list vfs srv f req))).
Proof.
  unfold Ftp_list. rewrite mergeWithRequestMetadata_nil. cbv iota beta.
  session_unfold. all_calls; try solve_discipline.
  destruct (getSecureDir vfs _ _) as [dir | e]; [| solve_discipline].
  all_calls; solve_discipline.
Qed.

Lemma get_quit_discipline vfs srv f req :
  quit_discipline (fst (run (Ftp_get vfs srv f req)))
                  (snd (run (Ftp_get vfs srv f req))).
Proof.
  unfold Ftp_get. rewrite mergeWithRequestMetadata_nil. cbv iota beta.
  destruct (String.eqb (metadata_value req "Filename") EmptyString);
    [solve_discipline |].
  destruct (getSecureDirAndFilename vfs _ _) as [[[absPath dir] name] | e];
    [| solve_discipline].
  session_unfold. all_calls; solve_discipline.
Qed.

Lemma delete_quit_discipline vfs srv f req :
  quit_discipline (fst (run (Ftp_delete vfs srv f req)))
                  (snd (run (Ftp_delete vfs srv f req))).
Proof.
  unfold Ftp_delete. rewrite mergeWithRequestMetadata_nil. cbv iota beta.
  destruct (String.eqb (metadata_value req "Filename") EmptyString);
    [solve_discipline |].
  destruct (getSecureDirAndFilename vfs _ _) as [[[absPath dir] name] | e];
    [| solve_discipline].
  session_unfold. all_calls; solve_discipline.
Qed.

Lemma Invoke_quit_discipline vfs srv f req :
  quit_discipline (fst (run (Ftp_Invoke vfs srv f req)))
                  (snd (run (Ftp_Invoke vfs srv f req))).
Proof.
  unfold Ftp_Invoke.
  destruct (String.eqb (Operation req) CreateOperation);
    [apply create_quit_discipline |].
  destruct (String.eqb (Operation req) ListOperation);
    [apply list_quit_discipline |].
  destruct (String.eqb (Operation req) GetOperation);
    [apply get_quit_discipline |].
  destruct (String.eqb (Operation req) DeleteOperation);
    [apply delete_quit_discipline |].
  solve_discipline.
Qed.

(** C2, as amended.  For each of the four handlers, and for the dispatcher,
    [Quit] is called on the path where every earlier step succeeded and on
    no early exit: a successful invocation has called [Quit] exactly once,
    while an invocation that fails after the login -- at the resolution of
    the directory (list), a directory change or creation, a store, a
    listing, a retrieval or a delete -- returns without calling [Quit] and
    leaves the session open. *)
Theorem quit_only_after_success
        (vfs : Securejoin.VFS) (srv : Server) (f : Ftp) (req : InvokeRequest)
        (h : Ftp -> InvokeRequest -> Session InvokeResponse)
        (tr : list Event) (r : outcome InvokeResponse) :
  In h [Ftp_create vfs srv; Ftp_list vfs srv; Ftp_get vfs srv;
        Ftp_delete vfs srv; Ftp_Invoke vfs srv] ->
  run (h f req) = (tr, r) ->
  (forall resp, r = Return resp ->
                length (List.filter is_quit tr) = 1 /\ session_open tr = false) /\
  (forall e, r = Fail e -> after_login_failure e = true -> session_open tr = true) /\
  (forall name e, In (Retr name, Some e) tr -> session_open tr = true).
Proof.
  intros Hh Hrun.
  assert (Htr : tr = fst (run (h f req))) by now rewrite Hrun.
  assert (Hr : r = snd (run (h f req))) by now rewrite Hrun.
  subst tr r. clear Hrun.
  simpl in Hh.
  destruct Hh as [<- | [<- | [<- | [<- | [<- | []]]]]].
  - apply create_quit_discipline.
  - apply list_quit_discipline.
  - apply get_quit_discipline.
  - apply delete_quit_discipline.
  - apply Invoke_quit_discipline.
Qed.

Lemma quit_only_after_success_witness :
  session_open
    [(Dial "ftp.example.com:21", None); (Login "dapr" "secret", None);
     (ChangeDir "srv/ftp/data/reports", Some (FtpError "550"))] = true.
Proof.
  refine (proj1 (proj2
    (quit_only_after_success
       Securejoin.emptyVFS (Samples.failing Samples.bad_ChangeDir) Samples.ftp
       (Samples.request GetOperation "" [("Filename", "reports/out.txt")])
       (Ftp_get Securejoin.emptyVFS (Samples.failing Samples.bad_ChangeDir))
       _ _ _ _))
    (ErrDirectoryChange "srv/ftp/data/reports" (FtpError "550")) _ _).
  - simpl. right; right; left. reflexivity.
  - vm_compute. reflexivity.
  - reflexivity.
  - reflexivity.
Defined.

(** C2, as the claim states it, fails: a get whose change of directory is
    refused returns after a successful dial and login without ever calling
    [Quit]. *)
Lemma session_left_open_on_error :
  ~ (forall vfs srv f req tr r,
        run (Ftp_Invoke vfs srv f req) = (tr, r) ->
        logged_in tr = true -> quit_issued tr = true).
Proof.
  intros H.
  specialize (H Securejoin.emptyVFS (Samples.failing Samples.bad_ChangeDir)
                Samples.ftp
                (Samples.request GetOperation "" [("Filename", "reports/out.txt")])
                _ _ eq_refl).
  vm_compute in H. specialize (H eq_refl). discriminate.
Qed.

(** ** The filename of a request *)

(** C6, as amended.  The handlers read the filename under the key
    [Filename]: when the request carries no value, or the empty string,
    under that key, create, get and delete return the filename-is-empty
    error without a single call on the FTP client, so that no connection
    is opened. *)
Theorem empty_filename_rejected
        (vfs : Securejoin.VFS) (srv : Server) (f : Ftp) (req : InvokeRequest)
        (h : Ftp -> InvokeRequest -> Session InvokeResponse) :
  In h [Ftp_create vfs srv; Ftp_get vfs srv; Ftp_delete vfs srv] ->
  Metadata req !! "Filename" = None \/ Metadata req !! "Filename" = Some EmptyString ->
  run (h f req) = ([], Fail ErrFilenameEmpty).
Proof.
  intros Hh Hkey.
  assert (Hval : metadata_value req "Filename" = EmptyString)
    by (unfold metadata_value; destruct Hkey as [-> | ->]; reflexivity).
  simpl in Hh. destruct Hh as [<- | [<- | [<- | []]]];
    unfold Ftp_create, Ftp_get, Ftp_delete;
    rewrite mergeWithRequestMetadata_nil; cbv iota beta;
    rewrite Hval; reflexivity.
Qed.

Lemma empty_filename_rejected_witness :
  run (Ftp_get Securejoin.emptyVFS Samples.okServer Samples.ftp
         (Samples.request GetOperation "" [("Filename", "")]))
  = ([], Fail ErrFilenameEmpty).
Proof.
  apply (empty_filename_rejected Securejoin.emptyVFS Samples.okServer).
  - simpl. right; left. reflexivity.
  - right. vm_compute. reflexivity.
Defined.

(** C6, as the claim states it, fails: the key [filename] is not the one
    the handlers read.  A create request that names its file under
    [Filename] and has nothing under [filename] is served: the client
    dials, logs in and stores the file. *)
Lemma lowercase_filename_key_not_read :
  ~ (forall vfs srv f req h,
        In h [Ftp_create vfs srv; Ftp_get vfs srv; Ftp_delete vfs srv] ->
        Metadata req !! "filename" = None \/
        Metadata req !! "filename" = Some EmptyString ->
        run (h f req) = ([], Fail ErrFilenameEmpty)).
Proof.
  intros H.
  specialize (H Securejoin.emptyVFS Samples.okServer Samples.ftp
                (Samples.request CreateOperation "hello" [("Filename", "reports/out.txt")])
                (Ftp_create Securejoin.emptyVFS Samples.okServer)).
  assert (Hin : In (Ftp_create Securejoin.emptyVFS Samples.okServer)
                   [Ftp_create Securejoin.emptyVFS Samples.okServer;
                    Ftp_get Securejoin.emptyVFS Samples.okServer;
                    Ftp_delete Securejoin.emptyVFS Samples.okServer])
    by (left; reflexivity).
  specialize (H Hin (or_introl eq_refl)).
  vm_compute in H. discriminate.
Qed.

(** ** get *)

(** C7, as amended.  A successful get has made exactly the calls [Dial],
    [Login], [ChangeDir], [Retr], [Quit], [ReadAll] and [Close], in that
    order: the retrieval stream is read to its end after the session has
    been terminated, and released last, when the handler returns.  The
    response is the bytes [ReadAll] returned, as they are, without a JSON
    envelope. *)
Theorem get_success
        (vfs : Securejoin.VFS) (srv : Server) (f : Ftp) (req : InvokeRequest)
        (tr : list Event) (resp : InvokeResponse) :
  run (Ftp_get vfs srv f req) = (tr, Return resp) ->
  exists absPath dir exactFilename closed,
    getSecureDirAndFilename vfs (RootPath (metadata f)) (metadata_value req "Filename")
    = Ok (absPath, dir, exactFilename) /\
    let md := fst (mergeWithRequestMetadata (metadata f) req) in
    let session :=
      [(Dial (Server_ md), None); (Login (User md) (Password md), None);
       (ChangeDir dir, None); (Retr exactFilename, None); (Quit, None)] in
    tr = session ++ [(ReadAll, None); (Close, closed)] /\
    RespData resp = content srv session.
Proof.
  unfold Ftp_get. rewrite mergeWithRequestMetadata_nil. cbv iota beta.
  destruct (String.eqb (metadata_value req "Filename") EmptyString);
    [discriminate |].
  destruct (getSecureDirAndFilename vfs _ _) as [[[absPath dir] name] | e];
    [| discriminate].
  session_unfold. cbn [app fst snd].
  do 6 (next_call; [discriminate |]).
  intros [= <- <-].
  exists absPath, dir, name. eexists. repeat split.
Qed.

Lemma get_success_witness :
  RespData
    (match snd (run (Ftp_get Securejoin.emptyVFS Samples.okServer Samples.ftp
                       (Samples.request GetOperation ""
                          [("Filename", "reports/out.txt")]))) with
     | Return resp => resp
     | Fail _ => {| RespData := EmptyString |}
     end)
  = content Samples.okServer
      [(Dial "ftp.example.com:21", None); (Login "dapr" "secret", None);
       (ChangeDir "srv/ftp/data/reports", None); (Retr "out.txt", None);
       (Quit, None)].
Proof.
  destruct (get_success Securejoin.emptyVFS Samples.okServer Samples.ftp
              (Samples.request GetOperation "" [("Filename", "reports/out.txt")])
              [(Dial "ftp.example.com:21", None); (Login "dapr" "secret", None);
               (ChangeDir "srv/ftp/data/reports", None); (Retr "out.txt", None);
               (Quit, None); (ReadAll, None); (Close, None)]
              {| RespData := "hello" |})
    as (absPath & dir & name & closed & Eres & Etr & Edata).
  - vm_compute. reflexivity.
  - vm_compute in Eres. injection Eres as <- <- <-. exact Edata.
Defined.

(** C7, as the claim states it, fails on the order: in a successful get the
    stream is neither read nor released before or together with [Quit];
    both [ReadAll] and [Close] come after it. *)
Lemma get_drains_after_quit :
  ~ (forall vfs srv f req tr resp,
        run (Ftp_get vfs srv f req) = (tr, Return resp) ->
        forall before after,
          commands tr = before ++ Quit :: after ->
          ~ In ReadAll after /\ ~ In Close after).
Proof.
  intros H.
  destruct (H Securejoin.emptyVFS Samples.okServer Samples.ftp
              (Samples.request GetOperation "" [("Filename", "reports/out.txt")])
              _ _ eq_refl
              [Dial "ftp.example.com:21"; Login "dapr" "secret";
               ChangeDir "srv/ftp/data/reports"; Retr "out.txt"]
              [ReadAll; Close] eq_refl) as [Hread _].
  apply Hread. left. reflexivity.
Qed.

(** ** delete *)

(** What the delete handler returns once the delete command has been
    sent. *)
Lemma delete_command_outcome
        (vfs : Securejoin.VFS) (srv : Server) (f : Ftp) (req : InvokeRequest)
        (tr : list Event) (r : outcome InvokeResponse) :
  run (Ftp_delete vfs srv f req) = (tr, r) ->
  (forall name e, In (Delete name, Some e) tr -> r = Fail (ErrFileDelete name e)) /\
  (forall name, In (Delete name, None) tr ->
      (In (Quit, None) tr /\ r = Return {| RespData := EmptyString |}) \/
      (exists e, In (Quit, Some e) tr /\ r = Fail (ErrQuit e))).
Proof.
  unfold Ftp_delete. rewrite mergeWithRequestMetadata_nil. cbv iota beta.
  assert (Hstop : forall e, ([] : list Event, Fail e) = (tr, r) ->
            (forall name e', In (Delete name, Some e') tr -> r = Fail (ErrFileDelete name e')) /\
            (forall name, In (Delete name, None) tr ->
               (In (Quit, None) tr /\ r = Return {| RespData := EmptyString |}) \/
               (exists e', In (Quit, Some e') tr /\ r = Fail (ErrQuit e')))).
  { intros e [= <- <-]. split; intros; contradiction. }
  destruct (String.eqb (metadata_value req "Filename") EmptyString);
    [apply Hstop |].
  destruct (getSecureDirAndFilename vfs _ _) as [[[absPath dir] name] | e];
    [| apply Hstop].
  clear Hstop. session_unfold. all_calls; intros [= <- <-]; split;
    intros n; intros; simpl in *;
    repeat match goal with
           | H : _ \/ _ |- _ => destruct H as [H | H]; try discriminate H
           | H : False |- _ => contradiction
           | H : (_, _) = (_, _) |- _ => injection H as ? ?; subst
           end;
    try reflexivity.
  - right. eexists. split; [| reflexivity]. tauto.
  - left. split; [tauto | reflexivity].
Qed.

(** C9, as the claim states it, fails: a successful delete command does not
    by itself give the empty success payload.  When the [Quit] that
    follows is refused, the handler returns the quit error. *)
Lemma delete_succeeds_but_quit_fails :
  ~ (forall vfs srv f req tr r,
        run (Ftp_delete vfs srv f req) = (tr, r) ->
        forall name, In (Delete name, None) tr ->
                     r = Return {| RespData := EmptyString |}).
Proof.
  intros H.
  specialize (H Securejoin.emptyVFS (Samples.failing Samples.bad_Quit) Samples.ftp
                (Samples.request DeleteOperation "" [("Filename", "reports/out.txt")])
                _ _ eq_refl "out.txt").
  simpl in H.
  assert (E : @Fail InvokeResponse (ErrQuit (FtpError "550"))
              = Return {| RespData := EmptyString |}).
  { apply H. right; right; right; left. reflexivity. }
  discriminate E.
Qed.

(** ** The create scenario *)

Lemma scenario_resolution :
  getSecureDirAndFilename Securejoin.emptyVFS "/srv/ftp/data" "reports/out.txt"
  = Ok ("srv/ftp/data/reports/out.txt", "srv/ftp/data/reports", "out.txt").
Proof. vm_compute. reflexivity. Qed.

(** C3, as amended.  With the root path [/srv/ftp/data] and a create
    request for the file [reports/out.txt], on a host without symbolic
    links, the resolved path is the relative path
    [srv/ftp/data/reports/out.txt], to be stored as [out.txt] in the
    directory [srv/ftp/data/reports]; whenever the handler succeeds, its
    response is the JSON object whose one field [fileName] holds that
    relative path; and it does succeed when the server accepts every
    call. *)
Theorem create_scenario
        (vfs : Securejoin.VFS) (srv : Server) (f : Ftp) (req : InvokeRequest) :
  Securejoin.no_links vfs ->
  RootPath (metadata f) = "/srv/ftp/data" ->
  Metadata req !! "Filename" = Some "reports/out.txt" ->
  getSecureDirAndFilename vfs (RootPath (metadata f)) (metadata_value req "Filename")
  = Ok ("srv/ftp/data/reports/out.txt", "srv/ftp/data/reports", "out.txt")
  /\
  (forall tr resp,
      run (Ftp_create vfs srv f req) = (tr, Return resp) ->
      RespData resp
      = Json.render (Json.Obj [("fileName", Json.Str "srv/ftp/data/reports/out.txt")]))
  /\
  ((forall tr c, status srv tr c = None) ->
   exists tr,
     run (Ftp_create vfs srv f req)
     = (tr, Return {| RespData :=
                        Json.render
                          (Json.Obj [("fileName",
                                      Json.Str "srv/ftp/data/reports/out.txt")]) |})).
Proof.
  intros Hvfs Hroot Hkey.
  assert (Hval : metadata_value req "Filename" = "reports/out.txt")
    by (unfold metadata_value; now rewrite Hkey).
  assert (Hres : getSecureDirAndFilename vfs (RootPath (metadata f))
                   (metadata_value req "Filename")
                 = Ok ("srv/ftp/data/reports/out.txt", "srv/ftp/data/reports", "out.txt")).
  { rewrite Hroot, Hval, getSecureDirAndFilename_link_free by assumption.
    apply scenario_resolution. }
  split; [exact Hres |].
  unfold Ftp_create. rewrite mergeWithRequestMetadata_nil. cbv iota beta.
  rewrite Hres. rewrite Hval.
  change (String.eqb "reports/out.txt" EmptyString) with false. cbv iota.
  session_unfold. cbn [app fst snd]. split.
  - intros tr resp.
    all_calls; intros [= <- <-]; reflexivity.
  - intros Hok. rewrite !Hok. eexists. reflexivity.
Qed.

Lemma create_scenario_witness :
  getSecureDirAndFilename Securejoin.emptyVFS
    (RootPath (metadata Samples.ftp))
    (metadata_value
       (Samples.request CreateOperation "hello" [("Filename", "reports/out.txt")])
       "Filename")
  = Ok ("srv/ftp/data/reports/out.txt", "srv/ftp/data/reports", "out.txt").
Proof.
  apply (create_scenario Securejoin.emptyVFS Samples.okServer Samples.ftp
           (Samples.request CreateOperation "hello" [("Filename", "reports/out.txt")])).
  - apply emptyVFS_no_links.
  - reflexivity.
  - vm_compute. reflexivity.
Defined.

(** C3, as the claim states it, fails on both counts: the resolved path is
    not [/srv/ftp/data/reports/out.txt], and the response of a successful
    create does not hold that path. *)
Lemma create_scenario_path_is_relative :
  ~ (forall vfs f req absPath dir exactFilename,
        RootPath (metadata f) = "/srv/ftp/data" ->
        Metadata req !! "Filename" = Some "reports/out.txt" ->
        getSecureDirAndFilename vfs (RootPath (metadata f))
          (metadata_value req "Filename") = Ok (absPath, dir, exactFilename) ->
        absPath = "/srv/ftp/data/reports/out.txt")
  /\
  ~ (forall vfs srv f req tr resp,
        RootPath (metadata f) = "/srv/ftp/data" ->
        Metadata req !! "Filename" = Some "reports/out.txt" ->
        run (Ftp_create vfs srv f req) = (tr, Return resp) ->
        RespData resp
        = Json.render
            (Json.Obj [("fileName", Json.Str "/srv/ftp/data/reports/out.txt")])).
Proof.
  split; intros H.
  - specialize (H Securejoin.emptyVFS Samples.ftp
                  (Samples.request CreateOperation "hello"
                     [("Filename", "reports/out.txt")])
                  _ _ _ eq_refl eq_refl scenario_resolution).
    discriminate H.
  - specialize (H Securejoin.emptyVFS Samples.okServer Samples.ftp
                  (Samples.request CreateOperation "hello"
                     [("Filename", "reports/out.txt")])
                  _ _ eq_refl eq_refl eq_refl).
    vm_compute in H. discriminate H.
Qed.

(** * Further properties of the path resolution *)

Section ResolvedPaths.
Import Filepath Securejoin.

Lemma join_sep_nonempty (l : list string) (b : string) :
  Forall (fun e => normal e = true) (l ++ [b]) ->
  String.eqb (join_sep (l ++ [b])) EmptyString = false.
Proof.
  intros Hall. destruct (String.eqb _ _) eqn:E; [| reflexivity].
  apply String.eqb_eq in E.
  assert (Hs : split_sep (join_sep (l ++ [b])) = l ++ [b])
    by (apply split_join; [destruct l; discriminate | assumption]).
  rewrite E in Hs. simpl in Hs.
  apply List.Forall_app in Hall. destruct Hall as [_ Hb].
  inversion Hb as [|? ? Hnb _]; subst.
  destruct l as [|x l]; [| destruct l; discriminate].
  injection Hs as <-. discriminate Hnb.
Qed.

Lemma rel_path_snoc (l : list string) (b : string) :
  rel_path (l ++ [b]) = join_sep (l ++ [b]).
Proof. destruct l; reflexivity. Qed.

(** [Dir] and [Base] split a clean relative path before its last
    element. *)
Lemma Dir_rel_path (l : list string) (b : string) :
  Forall (fun e => normal e = true) (l ++ [b]) ->
  Dir (rel_path (l ++ [b])) = rel_path l.
Proof.
  intros Hall. rewrite rel_path_snoc. unfold Dir.
  rewrite split_join by (destruct l; discriminate || assumption).
  rewrite removelast_last.
  apply List.Forall_app in Hall. destruct Hall as [Hl _].
  destruct l as [|x l]; [reflexivity |].
  pose proof (Clean_rel_abs (x :: l) [] Hl (List.Forall_nil _)) as E.
  rewrite app_nil_r in E. exact E.
Qed.

Lemma Base_rel_path (l : list string) (b : string) :
  Forall (fun e => normal e = true) (l ++ [b]) ->
  Base (rel_path (l ++ [b])) = b.
Proof.
  intros Hall. rewrite rel_path_snoc. unfold Base.
  rewrite join_sep_nonempty by assumption.
  rewrite split_join by (destruct l; discriminate || assumption).
  rewrite rev_app_distr. cbn [rev app drop_trailing_empty].
  apply List.Forall_app in Hall. destruct Hall as [_ Hb].
  inversion Hb as [|? ? Hnb _]; subst.
  destruct (String.eqb b EmptyString) eqn:E; [| reflexivity].
  apply String.eqb_eq in E. subst b. discriminate Hnb.
Qed.

Lemma normal_facts (b : string) :
  normal b = true ->
  has_sep b = false /\ b <> EmptyString /\ b <> dotdot /\ b <> dot.
Proof.
  intros Hb. split; [now apply normal_free |].
  repeat split; intros ->; discriminate Hb.
Qed.

(** The shape of what [getSecureDirAndFilename] returns: the elements of
    the sanitised root, then those of the cleaned name. *)
Lemma resolution_shape (vfs : VFS) (rootPath filename absPath dir exactFilename : string) :
  getSecureDirAndFilename vfs rootPath filename = Ok (absPath, dir, exactFilename) ->
  exists rs rel,
    Forall (fun e => normal e = true) rs /\
    Forall (fun e => normal e = true) rel /\
    SecureJoin vfs "." rootPath = Ok (rel_path rs) /\
    absPath = rel_path (rs ++ rel) /\
    dir = Dir absPath /\ exactFilename = Base absPath.
Proof.
  unfold getSecureDirAndFilename.
  destruct (SecureJoin vfs "." rootPath) as [root' |] eqn:E1; [| discriminate].
  destruct (SecureJoin vfs root' filename) as [p |] eqn:E2; [| discriminate].
  intros [= <- <- <-].
  apply (SecureJoin_shape vfs []) in E1; [| constructor].
  destruct E1 as (rs & Hrs & ->). cbn [app] in E2.
  apply SecureJoin_shape in E2; [| assumption].
  destruct E2 as (rel & Hrel & ->).
  exists rs, rel. repeat split; assumption.
Qed.

Lemma list_snoc_cases {A} (l : list A) : l = [] \/ exists init x, l = init ++ [x].
Proof.
  destruct l as [|a l]; [now left | right].
  destruct (exists_last (l := a :: l)) as (init & x & E); [discriminate |].
  eauto.
Qed.
End ResolvedPaths.

(** X2.  The three results of [getSecureDirAndFilename] fit together:
    joining the directory and the file name gives the resolved path back,
    the file name holds no separator and is neither empty nor [..], and the
    directory is a relative path without [..] that lies inside the
    sanitised root unless the name resolved to the sanitised root itself. *)
Theorem resolved_path_splits
        (vfs : Securejoin.VFS)
        (rootPath filename absPath dir exactFilename : string) :
  getSecureDirAndFilename vfs rootPath filename = Ok (absPath, dir, exactFilename) ->
  Filepath.Join [dir; exactFilename] = absPath /\
  Filepath.has_sep exactFilename = false /\
  exactFilename <> EmptyString /\ exactFilename <> ".." /\
  Filepath.IsAbs dir = false /\
  Forall (fun e => Filepath.normal e = true) (Filepath.path_elems dir) /\
  exists root',
    Securejoin.SecureJoin vfs "." rootPath = Ok root' /\
    (absPath = root' \/ Filepath.contained root' dir).
Proof.
  intros H. apply resolution_shape in H.
  destruct H as (rs & rel & Hrs & Hrel & Eroot & -> & -> & ->).
  assert (Hall : Forall (fun e => Filepath.normal e = true) (rs ++ rel))
    by (apply List.Forall_app; now split).
  destruct (list_snoc_cases (rs ++ rel)) as [Enil | (init & b & Esnoc)].
  - rewrite Enil. apply app_eq_nil in Enil. destruct Enil as [-> ->].
    repeat split; try reflexivity; try discriminate; try constructor.
    exists ".". split; [exact Eroot | now left].
  - rewrite Esnoc in Hall |- *.
    rewrite Dir_rel_path, Base_rel_path by assumption.
    pose proof Hall as Hsplit. apply List.Forall_app in Hsplit.
    destruct Hsplit as [Hinit Hb]. inversion Hb as [|? ? Hnb _]; subst.
    destruct (normal_facts b Hnb) as (Hfree & Hne & Hndd & _).
    assert (Hdirne : String.eqb (Filepath.rel_path init) EmptyString = false).
    { destruct init as [|x init]; [reflexivity |].
      destruct (list_snoc_cases (x :: init)) as [E | (i & y & E)]; [discriminate |].
      rewrite E in Hinit |- *. rewrite rel_path_snoc.
      now apply join_sep_nonempty. }
    assert (Hbne : String.eqb b EmptyString = false).
    { destruct (String.eqb b EmptyString) eqn:E; [| reflexivity].
      apply String.eqb_eq in E. contradiction. }
    repeat split; try assumption.
    + unfold Filepath.Join. cbn [filter list_filter]. rewrite Hdirne, Hbne.
      cbn [negb Is_true].
      destruct (decide True) as [_ | Hn]; [| now destruct Hn].
      change (Filepath.join_sep [Filepath.rel_path init; b])
        with (Filepath.rel_path init +:+ Filepath.abs_path [b]).
      now apply Clean_rel_abs.
    + now apply rel_path_is_rel.
    + now rewrite path_elems_rel_path.
    + exists (Filepath.rel_path rs). split; [exact Eroot |].
      destruct (list_snoc_cases rel) as [-> | (rel' & y & ->)].
      * left. rewrite app_nil_r in Esnoc. now rewrite Esnoc.
      * right. rewrite app_assoc in Esnoc.
        apply app_inj_tail in Esnoc. destruct Esnoc as [<- _].
        apply contained_rel_path; [assumption |].
        apply List.Forall_app in Hrel. tauto.
Qed.

Lemma resolved_path_splits_witness :
  Filepath.Join ["srv/ftp/data/etc"; "passwd"] = "srv/ftp/data/etc/passwd".
Proof.
  apply (resolved_path_splits Securejoin.emptyVFS "/srv/ftp/data" "../../etc/passwd").
  vm_compute. reflexivity.
Defined.

Section LeadingElements.
Import Filepath Securejoin.

Lemma walk_nil (vfs : VFS) (root : string) (budget : nat) (trailing : bool)
      (path : string) :
  walk vfs root (S budget) trailing path [] = Ok path.
Proof. reflexivity. Qed.

Lemma ends_with_sep_cons (c : ascii) (s : string) :
  s <> EmptyString -> ends_with_sep (String c s) = ends_with_sep s.
Proof. destruct s; [congruence | reflexivity]. Qed.

(** What is put in front of a path that is not empty does not change
    whether it ends with a separator. *)
Lemma ends_with_sep_prepend (a u : string) :
  u <> EmptyString ->
  ends_with_sep (a +:+ String Separator u) = ends_with_sep u.
Proof.
  intros Hu. induction a as [|x a IH].
  - rewrite append_empty_l. now apply ends_with_sep_cons.
  - rewrite append_cons, ends_with_sep_cons; [exact IH |].
    destruct a; discriminate.
Qed.

Lemma components_nonempty (s : string) : s <> EmptyString -> components s <> [].
Proof.
  destruct s as [|c s]; [congruence |]. intros _. simpl.
  destruct (is_sep c); [discriminate |].
  destruct (components s); discriminate.
Qed.

(** The elements and the final separator give the unread path back. *)
Lemma unread_components (s : string) :
  unread (ends_with_sep s) (components s) = s.
Proof.
  unfold unread. induction s as [|c s IH]; [reflexivity |].
  destruct s as [|c' s'].
  - simpl. destruct (is_sep c) eqn:Hc; [| reflexivity].
    apply Ascii.eqb_eq in Hc. now subst c.
  - rewrite ends_with_sep_cons by discriminate.
    assert (Hne : components (String c' s') <> [])
      by (apply components_nonempty; discriminate).
    remember (String c' s') as s1 eqn:Es1. clear Es1.
    cbn [components].
    destruct (components s1) as [|h t]; [congruence |].
    destruct (is_sep c) eqn:Hc.
    + apply Ascii.eqb_eq in Hc. subst c.
      change (join_sep (EmptyString :: h :: t))
        with (String Separator (join_sep (h :: t))).
      rewrite append_cons. now rewrite IH.
    + assert (Hj : join_sep (String c h :: t) = String c (join_sep (h :: t)))
        by (destruct t; reflexivity).
      rewrite Hj, append_cons. now rewrite IH.
Qed.

(** The first iteration of the loop drops an element that cleans to the
    root, without looking at the file system. *)
Lemma SecureJoin_drop_first (vfs : VFS) (root first unsafePath : string) :
  has_sep first = false ->
  String.eqb (Clean ("/" +:+ first)) "/" = true ->
  SecureJoin vfs root (first +:+ String Separator unsafePath)
  = SecureJoin vfs root unsafePath.
Proof.
  intros Hfree Hclean. unfold SecureJoin, SecureJoinVFS, maxLinks.
  rewrite components_prepend, split_sep_free by assumption.
  cbn [app]. rewrite walk_cons. cbv zeta.
  change ("/" +:+ EmptyString +:+ first) with ("/" +:+ first).
  rewrite Hclean.
  destruct unsafePath as [|c u].
  - cbn [components]. now rewrite !walk_nil.
  - now rewrite ends_with_sep_prepend by discriminate.
Qed.

Lemma SecureJoin_empty_name (vfs : VFS) (rs : list string) :
  Forall (fun e => normal e = true) rs ->
  SecureJoin vfs (rel_path rs) EmptyString = Ok (rel_path rs).
Proof.
  intros Hrs. unfold SecureJoin, SecureJoinVFS, maxLinks. cbn [components walk].
  change (Clean ("/" +:+ EmptyString)) with (abs_path []).
  rewrite Clean_rel_abs by (assumption || constructor).
  now rewrite app_nil_r.
Qed.
End LeadingElements.

(** X3.  A leading [../], [./] or [/] of the untrusted name is dropped:
    both resolution functions return for such a name what they return for
    the rest of it, on every host.  So no run of [../] at the start of a
    name gets a request out of the root. *)
Theorem leading_traversal_dropped
        (vfs : Securejoin.VFS) (rootPath name : string) :
  getSecureDirAndFilename vfs rootPath ("../" +:+ name)
  = getSecureDirAndFilename vfs rootPath name /\
  getSecureDirAndFilename vfs rootPath ("./" +:+ name)
  = getSecureDirAndFilename vfs rootPath name /\
  getSecureDirAndFilename vfs rootPath ("/" +:+ name)
  = getSecureDirAndFilename vfs rootPath name /\
  getSecureDir vfs rootPath ("../" +:+ name) = getSecureDir vfs rootPath name /\
  getSecureDir vfs rootPath ("./" +:+ name) = getSecureDir vfs rootPath name /\
  getSecureDir vfs rootPath ("/" +:+ name) = getSecureDir vfs rootPath name.
Proof.
  unfold getSecureDirAndFilename, getSecureDir.
  destruct (Securejoin.SecureJoin vfs "." rootPath) as [root' | e];
    [| repeat split].
  change ("../" +:+ name) with (".." +:+ String Filepath.Separator name).
  change ("./" +:+ name) with ("." +:+ String Filepath.Separator name).
  change ("/" +:+ name) with (EmptyString +:+ String Filepath.Separator name).
  rewrite !SecureJoin_drop_first by reflexivity.
  repeat split.
Qed.

(** X4.  Resolving the empty directory, [.] or [/] gives the sanitised
    root itself, or the error of the sanitisation: a list request without a
    directory lists the root. *)
Theorem getSecureDir_of_root (vfs : Securejoin.VFS) (rootPath : string) :
  getSecureDir vfs rootPath EmptyString = Securejoin.SecureJoin vfs "." rootPath /\
  getSecureDir vfs rootPath "." = Securejoin.SecureJoin vfs "." rootPath /\
  getSecureDir vfs rootPath "/" = Securejoin.SecureJoin vfs "." rootPath.
Proof.
  unfold getSecureDir.
  destruct (Securejoin.SecureJoin vfs "." rootPath) as [root' | e] eqn:E;
    [| repeat split].
  apply (SecureJoin_shape vfs []) in E; [| constructor].
  destruct E as (rs & Hrs & ->). cbn [app].
  assert (Hdot : Securejoin.SecureJoin vfs (Filepath.rel_path rs) "."
                 = Securejoin.SecureJoin vfs (Filepath.rel_path rs) EmptyString).
  { unfold Securejoin.SecureJoin, Securejoin.SecureJoinVFS, Securejoin.maxLinks.
    change (Securejoin.components ".") with ["."].
    rewrite walk_cons. reflexivity. }
  assert (Hslash : Securejoin.SecureJoin vfs (Filepath.rel_path rs) "/"
                   = Securejoin.SecureJoin vfs (Filepath.rel_path rs) EmptyString).
  { unfold Securejoin.SecureJoin, Securejoin.SecureJoinVFS, Securejoin.maxLinks.
    change (Securejoin.components "/") with [EmptyString].
    rewrite walk_cons. reflexivity. }
  rewrite Hdot, Hslash, SecureJoin_empty_name by assumption.
  repeat split.
Qed.

(** X5.  The sanitised root is a fixed point on a host without symbolic
    links: configuring it in place of the original root changes nothing in
    what the two resolution functions return. *)
Theorem sanitised_root_is_stable
        (vfs : Securejoin.VFS) (rootPath root' name : string) :
  Securejoin.no_links vfs ->
  Securejoin.SecureJoin vfs "." rootPath = Ok root' ->
  Securejoin.SecureJoin vfs "." root' = Ok root' /\
  getSecureDirAndFilename vfs root' name = getSecureDirAndFilename vfs rootPath name /\
  getSecureDir vfs root' name = getSecureDir vfs rootPath name.
Proof.
  intros Hvfs E.
  assert (E' : Securejoin.SecureJoin vfs "." root' = Ok root').
  { pose proof E as Es. apply (SecureJoin_shape vfs []) in Es; [| constructor].
    destruct Es as (rs & Hrs & ->). now apply SecureJoin_clean_root. }
  unfold getSecureDirAndFilename, getSecureDir. rewrite E, E'. repeat split.
Qed.

Lemma sanitised_root_is_stable_witness :
  getSecureDir Securejoin.emptyVFS "srv/ftp/data" "../x"
  = getSecureDir Securejoin.emptyVFS "/srv/../srv/ftp//data/" "../x".
Proof.
  apply (sanitised_root_is_stable Securejoin.emptyVFS
           "/srv/../srv/ftp//data/" "srv/ftp/data" "../x").
  - apply emptyVFS_no_links.
  - vm_compute. reflexivity.
Defined.

(** * Further properties of the handlers *)

Lemma merged_connection (static : ftpMetadata) (req : InvokeRequest) :
  Server_ (fst (mergeWithRequestMetadata static req)) = Server_ static /\
  User (fst (mergeWithRequestMetadata static req)) = User static /\
  Password (fst (mergeWithRequestMetadata static req)) = Password static /\
  RootPath (fst (mergeWithRequestMetadata static req)) = RootPath static.
Proof.
  unfold mergeWithRequestMetadata. cbn [fst].
  destruct (Metadata req !! "Directory") as [val |]; [| repeat split].
  destruct (negb (String.eqb val EmptyString)); repeat split.
Qed.

(** Rewriting of the connection data of the merged configuration. *)
Ltac static_connection f req :=
  destruct (merged_connection (metadata f) req) as (-> & -> & -> & ?).

Lemma forallb_normal (l : list string) :
  Forall (fun e => Filepath.normal e = true) l -> forallb Filepath.normal l = true.
Proof.
  intros H. apply forallb_forall. intros x Hx.
  rewrite List.Forall_forall in H. now apply H.
Qed.

Lemma rel_path_safe (l : list string) :
  Forall (fun e => Filepath.normal e = true) l -> safe_dir (Filepath.rel_path l) = true.
Proof.
  intros Hl. unfold safe_dir. rewrite rel_path_is_rel by assumption.
  destruct l as [|x l]; [reflexivity |].
  unfold Filepath.rel_path.
  rewrite split_join, forallb_normal by (congruence || assumption).
  now rewrite orb_true_r.
Qed.

Lemma resolution_safe (vfs : Securejoin.VFS)
      (rootPath filename absPath dir exactFilename : string) :
  getSecureDirAndFilename vfs rootPath filename = Ok (absPath, dir, exactFilename) ->
  safe_dir dir = true /\ safe_name exactFilename = true.
Proof.
  intros H. apply resolution_shape in H.
  destruct H as (rs & rel & Hrs & Hrel & _ & -> & -> & ->).
  assert (Hall : Forall (fun e => Filepath.normal e = true) (rs ++ rel))
    by (apply List.Forall_app; now split).
  destruct (list_snoc_cases (rs ++ rel)) as [-> | (init & b & E)].
  - split; reflexivity.
  - rewrite E in Hall |- *.
    rewrite Dir_rel_path, Base_rel_path by assumption.
    apply List.Forall_app in Hall. destruct Hall as [Hinit Hb].
    inversion Hb as [|? ? Hnb _]; subst.
    split; [now apply rel_path_safe |].
    unfold safe_name. unfold Filepath.normal in Hnb.
    destruct (Filepath.has_sep b); [now rewrite !andb_false_r in Hnb |].
    destruct (String.eqb b EmptyString); [discriminate Hnb |].
    destruct (String.eqb b Filepath.dotdot);
      [now rewrite !andb_false_r in Hnb | reflexivity].
Qed.

Lemma getSecureDir_safe (vfs : Securejoin.VFS) (rootPath directory dir : string) :
  getSecureDir vfs rootPath directory = Ok dir -> safe_dir dir = true.
Proof.
  unfold getSecureDir.
  destruct (Securejoin.SecureJoin vfs "." rootPath) as [root' |] eqn:E1;
    [| discriminate].
  intros E2.
  apply (SecureJoin_shape vfs []) in E1; [| constructor].
  destruct E1 as (rs & Hrs & ->). cbn [app] in E2.
  apply SecureJoin_shape in E2; [| assumption].
  destruct E2 as (rel & Hrel & ->).
  apply rel_path_safe, List.Forall_app. now split.
Qed.

(** The start of every handler: the merge, whose error is nil and whose
    connection data is that of the static configuration. *)
Ltac enter_handler vfs f req :=
  rewrite mergeWithRequestMetadata_nil; cbv iota beta;
  static_connection f req.

(** The end of a run: the encoding of the response cannot fail. *)
Ltac leave_handler :=
  unfold json_Marshal_createResponse, json_Marshal_listResponse;
  cbv iota beta; cbn [app fst snd].

(** X6.  Whatever the request, the answers of the server and the host, no
    command the binding sends carries a traversal: every directory given
    to [ChangeDir], [MakeDir] or [List] is [.] or a relative path in which
    every element, as written between the separators, is neither empty
    nor [.] nor [..]; and every name given to [Stor], [Retr] or [Delete]
    is a single element without a separator, neither empty nor [..].  (The
    other bytes of a name, a line break or a backslash say, are passed on
    as the request has them.) *)
Theorem commands_are_safe
        (vfs : Securejoin.VFS) (srv : Server) (f : Ftp) (req : InvokeRequest) :
  forallb safe_command (commands (fst (run (Ftp_Invoke vfs srv f req)))) = true.
Proof.
  unfold Ftp_Invoke.
  destruct (String.eqb (Operation req) CreateOperation).
  { unfold Ftp_create. enter_handler vfs f req.
    destruct (String.eqb (metadata_value req "Filename") EmptyString);
      [reflexivity |].
    destruct (getSecureDirAndFilename vfs _ _) as [[[absPath dir] name] | e] eqn:E;
      [| reflexivity].
    destruct (resolution_safe _ _ _ _ _ _ E) as [Hd Hn].
    session_unfold. all_calls; leave_handler;
      cbn [commands map fst forallb safe_command]; rewrite ?Hd, ?Hn; reflexivity. }
  destruct (String.eqb (Operation req) ListOperation).
  { unfold Ftp_list. enter_handler vfs f req.
    session_unfold. all_calls; try reflexivity.
    destruct (getSecureDir vfs _ _) as [dir | e] eqn:E; [| reflexivity].
    pose proof (getSecureDir_safe _ _ _ _ E) as Hd.
    all_calls; leave_handler;
      cbn [commands map fst forallb safe_command]; rewrite ?Hd; reflexivity. }
  destruct (String.eqb (Operation req) GetOperation).
  { unfold Ftp_get. enter_handler vfs f req.
    destruct (String.eqb (metadata_value req "Filename") EmptyString);
      [reflexivity |].
    destruct (getSecureDirAndFilename vfs _ _) as [[[absPath dir] name] | e] eqn:E;
      [| reflexivity].
    destruct (resolution_safe _ _ _ _ _ _ E) as [Hd Hn].
    session_unfold. all_calls; leave_handler;
      cbn [commands map fst forallb safe_command]; rewrite ?Hd, ?Hn; reflexivity. }
  destruct (String.eqb (Operation req) DeleteOperation).
  { unfold Ftp_delete. enter_handler vfs f req.
    destruct (String.eqb (metadata_value req "Filename") EmptyString);
      [reflexivity |].
    destruct (getSecureDirAndFilename vfs _ _) as [[[absPath dir] name] | e] eqn:E;
      [| reflexivity].
    destruct (resolution_safe _ _ _ _ _ _ E) as [Hd Hn].
    session_unfold. all_calls; leave_handler;
      cbn [commands map fst forallb safe_command]; rewrite ?Hd, ?Hn; reflexivity. }
  reflexivity.
Qed.

(** X7.  What each handler leaves alone: list and get never create, store
    or delete anything; delete never creates a directory or stores a file;
    create never deletes. *)
Theorem handlers_keep_to_their_action
        (vfs : Securejoin.VFS) (srv : Server) (f : Ftp) (req : InvokeRequest) :
  forallb (fun c => negb (modifies c))
          (commands (fst (run (Ftp_list vfs srv f req)))) = true /\
  forallb (fun c => negb (modifies c))
          (commands (fst (run (Ftp_get vfs srv f req)))) = true /\
  forallb (fun c => negb (creates c))
          (commands (fst (run (Ftp_delete vfs srv f req)))) = true /\
  forallb (fun c => negb (removes c))
          (commands (fst (run (Ftp_create vfs srv f req)))) = true.
Proof.
  repeat split.
  - unfold Ftp_list. enter_handler vfs f req.
    session_unfold. all_calls; try reflexivity.
    destruct (getSecureDir vfs _ _) as [dir | e]; [| reflexivity].
    all_calls; reflexivity.
  - unfold Ftp_get. enter_handler vfs f req.
    destruct (String.eqb (metadata_value req "Filename") EmptyString);
      [reflexivity |].
    destruct (getSecureDirAndFilename vfs _ _) as [[[absPath dir] name] | e];
      [| reflexivity].
    session_unfold. all_calls; reflexivity.
  - unfold Ftp_delete. enter_handler vfs f req.
    destruct (String.eqb (metadata_value req "Filename") EmptyString);
      [reflexivity |].
    destruct (getSecureDirAndFilename vfs _ _) as [[[absPath dir] name] | e];
      [| reflexivity].
    session_unfold. all_calls; reflexivity.
  - unfold Ftp_create. enter_handler vfs f req.
    destruct (String.eqb (metadata_value req "Filename") EmptyString);
      [reflexivity |].
    destruct (getSecureDirAndFilename vfs _ _) as [[[absPath dir] name] | e];
      [| reflexivity].
    session_unfold. all_calls; reflexivity.
Qed.

(** X8.  Every invocation talks to the configured server with the
    configured credentials, whatever the request says: the trace is empty,
    or a failed [Dial] of the configured address, or that [Dial] followed
    by a failed [Login] of the configured user, or it starts with both of
    them succeeding, after which the client neither dials nor logs in
    again.  No other call is made outside a session that was opened this
    way. *)
Theorem connection_from_static_config
        (vfs : Securejoin.VFS) (srv : Server) (f : Ftp) (req : InvokeRequest) :
  let dial := Dial (Server_ (metadata f)) in
  let login := Login (User (metadata f)) (Password (metadata f)) in
  let tr := fst (run (Ftp_Invoke vfs srv f req)) in
  tr = []
  \/ (exists e, tr = [(dial, Some e)])
  \/ (exists e, tr = [(dial, None); (login, Some e)])
  \/ (exists rest,
         tr = (dial, None) :: (login, None) :: rest /\
         forallb (fun c => negb (opens c)) (commands rest) = true).
Proof.
  cbv zeta. unfold Ftp_Invoke.
  destruct (String.eqb (Operation req) CreateOperation).
  { unfold Ftp_create. enter_handler vfs f req.
    destruct (String.eqb (metadata_value req "Filename") EmptyString);
      [now left |].
    destruct (getSecureDirAndFilename vfs _ _) as [[[absPath dir] name] | e];
      [| now left].
    session_unfold. cbn [app fst snd].
    next_call; [right; left; eauto |].
    next_call; [right; right; left; eauto |].
    right; right; right.
    all_calls; leave_handler; eexists; split; reflexivity. }
  destruct (String.eqb (Operation req) ListOperation).
  { unfold Ftp_list. enter_handler vfs f req.
    session_unfold. cbn [app fst snd].
    next_call; [right; left; eauto |].
    next_call; [right; right; left; eauto |].
    right; right; right.
    destruct (getSecureDir vfs _ _) as [dir | e];
      [| eexists; split; reflexivity].
    all_calls; leave_handler; eexists; split; reflexivity. }
  destruct (String.eqb (Operation req) GetOperation).
  { unfold Ftp_get. enter_handler vfs f req.
    destruct (String.eqb (metadata_value req "Filename") EmptyString);
      [now left |].
    destruct (getSecureDirAndFilename vfs _ _) as [[[absPath dir] name] | e];
      [| now left].
    session_unfold. cbn [app fst snd].
    next_call; [right; left; eauto |].
    next_call; [right; right; left; eauto |].
    right; right; right.
    all_calls; eexists; split; reflexivity. }
  destruct (String.eqb (Operation req) DeleteOperation).
  { unfold Ftp_delete. enter_handler vfs f req.
    destruct (String.eqb (metadata_value req "Filename") EmptyString);
      [now left |].
    destruct (getSecureDirAndFilename vfs _ _) as [[[absPath dir] name] | e];
      [| now left].
    session_unfold. cbn [app fst snd].
    next_call; [right; left; eauto |].
    next_call; [right; right; left; eauto |].
    right; right; right.
    all_calls; eexists; split; reflexivity. }
  now left.
Qed.

(** X9.  In get, the retrieval stream is released on every path once it
    has been opened, and only then: when [Retr] succeeded, [Close] is the
    last call of the run, also when [Quit] or the read fails; when [Retr]
    failed or was never reached, [Close] is not called. *)
Theorem get_closes_stream
        (vfs : Securejoin.VFS) (srv : Server) (f : Ftp) (req : InvokeRequest) :
  let tr := fst (run (Ftp_get vfs srv f req)) in
  (forall name, In (Retr name, None) tr ->
                exists before st, tr = before ++ [(Close, st)]) /\
  ((forall name, ~ In (Retr name, None) tr) -> ~ In Close (commands tr)).
Proof.
  cbv zeta. unfold Ftp_get. enter_handler vfs f req.
  destruct (String.eqb (metadata_value req "Filename") EmptyString);
    [split; [intros ? [] | intros _ []] |].
  destruct (getSecureDirAndFilename vfs _ _) as [[[absPath dir] name] | e];
    [| split; [intros ? [] | intros _ []]].
  session_unfold. cbn [app fst snd].
  do 3 (next_call;
        [split; [intros n HIn; simpl in HIn;
                 repeat (destruct HIn as [HIn | HIn]; try discriminate HIn);
                 contradiction
                | intros _ HIn; simpl in HIn;
                  repeat (destruct HIn as [HIn | HIn]; try discriminate HIn);
                  contradiction] |]).
  next_call.
  - split.
    + intros n HIn; simpl in HIn.
      repeat (destruct HIn as [HIn | HIn]; try discriminate HIn). contradiction.
    + intros _ HIn; simpl in HIn.
      repeat (destruct HIn as [HIn | HIn]; try discriminate HIn). contradiction.
  - split.
    + intros n _. all_calls;
        first [ eexists [_; _; _; _; _], _; reflexivity
              | eexists [_; _; _; _; _; _], _; reflexivity ].
    + intros Hno. exfalso. apply (Hno name).
      all_calls; simpl; tauto.
Qed.

Lemma get_closes_stream_witness :
  exists before st,
    fst (run (Ftp_get Securejoin.emptyVFS (Samples.failing Samples.bad_Quit)
                Samples.ftp
                (Samples.request GetOperation "" [("Filename", "reports/out.txt")])))
    = before ++ [(Close, st)].
Proof.
  apply (proj1 (get_closes_stream Securejoin.emptyVFS
                  (Samples.failing Samples.bad_Quit) Samples.ftp
                  (Samples.request GetOperation "" [("Filename", "reports/out.txt")]))
               "out.txt").
  vm_compute. right; right; right; left. reflexivity.
Defined.

(** X10.  The handlers list, get and delete never make the same call
    twice: nothing is retried. *)
Theorem no_call_repeated
        (vfs : Securejoin.VFS) (srv : Server) (f : Ftp) (req : InvokeRequest) :
  List.NoDup (commands (fst (run (Ftp_list vfs srv f req)))) /\
  List.NoDup (commands (fst (run (Ftp_get vfs srv f req)))) /\
  List.NoDup (commands (fst (run (Ftp_delete vfs srv f req)))).
Proof.
  assert (Hnodup : forall l : list Command,
             (fix distinct (l : list Command) : Prop :=
                match l with
                | [] => True
                | c :: l' => ~ In c l' /\ distinct l'
                end) l -> List.NoDup l).
  { induction l as [|c l IH]; intros H; [constructor |].
    destruct H as [Hc Hl]. apply List.NoDup_cons; [exact Hc | now apply IH]. }
  repeat split.
  - unfold Ftp_list. enter_handler vfs f req.
    session_unfold. all_calls;
      try (apply Hnodup; simpl; intuition discriminate).
    destruct (getSecureDir vfs _ _) as [dir | e];
      [| apply Hnodup; simpl; intuition discriminate].
    all_calls; leave_handler; apply Hnodup; simpl; intuition discriminate.
  - unfold Ftp_get. enter_handler vfs f req.
    destruct (String.eqb (metadata_value req "Filename") EmptyString);
      [apply List.NoDup_nil |].
    destruct (getSecureDirAndFilename vfs _ _) as [[[absPath dir] name] | e];
      [| apply List.NoDup_nil].
    session_unfold. all_calls; apply Hnodup; simpl; intuition discriminate.
  - unfold Ftp_delete. enter_handler vfs f req.
    destruct (String.eqb (metadata_value req "Filename") EmptyString);
      [apply List.NoDup_nil |].
    destruct (getSecureDirAndFilename vfs _ _) as [[[absPath dir] name] | e];
      [| apply List.NoDup_nil].
    session_unfold. all_calls; apply Hnodup; simpl; intuition discriminate.
Qed.

(** A hypothesis [In ev tr] on a trace that is known, case by case. *)
Ltac in_trace H :=
  simpl in H;
  repeat (destruct H as [H | H]; try discriminate H);
  try contradiction.

(** X11.  The create handler stores the payload of the request as it is,
    under the resolved file name and from inside the resolved directory:
    every [Stor] of a run carries [req.Data] unchanged and the file name
    that the resolution returned, and comes after a successful change into
    the directory that the resolution returned.  A successful create has
    made that [Stor], with success. *)
Theorem create_stores_payload
        (vfs : Securejoin.VFS) (srv : Server) (f : Ftp) (req : InvokeRequest)
        (tr : list Event) (r : outcome InvokeResponse) :
  run (Ftp_create vfs srv f req) = (tr, r) ->
  (forall name data st,
      In (Stor name data, st) tr ->
      data = Data req /\
      exists absPath dir,
        getSecureDirAndFilename vfs (RootPath (metadata f))
          (metadata_value req "Filename") = Ok (absPath, dir, name) /\
        In (ChangeDir dir, None) tr) /\
  (forall resp,
      r = Return resp ->
      exists absPath dir name,
        getSecureDirAndFilename vfs (RootPath (metadata f))
          (metadata_value req "Filename") = Ok (absPath, dir, name) /\
        In (Stor name (Data req), None) tr).
Proof.
  unfold Ftp_create. enter_handler vfs f req.
  destruct (String.eqb (metadata_value req "Filename") EmptyString);
    [intros [= <- <-]; split; [intros ? ? ? [] | discriminate] |].
  destruct (getSecureDirAndFilename vfs _ _) as [[[absPath dir] name] | e];
    [| intros [= <- <-]; split; [intros ? ? ? [] | discriminate]].
  session_unfold. all_calls; leave_handler; intros [= <- <-]; split;
    try discriminate;
    try (intros n d st HIn; in_trace HIn;
         (injection HIn as <- <- <-;
          (split; [reflexivity |]); exists absPath, dir;
          (split; [reflexivity | simpl; auto 12])));
    (intros resp _; exists absPath, dir, name;
     (split; [reflexivity | simpl; auto 12])).
Qed.

Lemma create_stores_payload_witness :
  exists absPath dir name,
    getSecureDirAndFilename Securejoin.emptyVFS (RootPath (metadata Samples.ftp))
      (metadata_value
         (Samples.request CreateOperation "hello" [("Filename", "reports/out.txt")])
         "Filename")
    = Ok (absPath, dir, name) /\
    In (Stor name "hello", None)
       (fst (run (Ftp_create Securejoin.emptyVFS Samples.okServer Samples.ftp
                    (Samples.request CreateOperation "hello"
                       [("Filename", "reports/out.txt")])))).
Proof.
  refine (proj2
    (create_stores_payload Securejoin.emptyVFS Samples.okServer Samples.ftp
       (Samples.request CreateOperation "hello" [("Filename", "reports/out.txt")])
       _ _ _) _ _).
  - vm_compute. reflexivity.
  - reflexivity.
Defined.

(** X12.  Get and delete act on the resolved file name from inside the
    resolved directory, and a directory they cannot enter is fatal: every
    [Retr] or [Delete] of a run carries the file name that the resolution
    returned and comes after a successful change into the directory that
    the resolution returned; when the change of directory fails, the
    handler returns the directory-change error after these three calls,
    without creating the directory and without retrieving or deleting
    anything. *)
Theorem get_delete_target
        (vfs : Securejoin.VFS) (srv : Server) (f : Ftp) (req : InvokeRequest)
        (h : Ftp -> InvokeRequest -> Session InvokeResponse)
        (tr : list Event) (r : outcome InvokeResponse) :
  In h [Ftp_get vfs srv; Ftp_delete vfs srv] ->
  run (h f req) = (tr, r) ->
  (forall name st,
      In (Retr name, st) tr \/ In (Delete name, st) tr ->
      exists absPath dir,
        getSecureDirAndFilename vfs (RootPath (metadata f))
          (metadata_value req "Filename") = Ok (absPath, dir, name) /\
        In (ChangeDir dir, None) tr) /\
  (forall dir e,
      In (ChangeDir dir, Some e) tr ->
      r = Fail (ErrDirectoryChange dir e) /\
      commands tr = [Dial (Server_ (metadata f));
                     Login (User (metadata f)) (Password (metadata f));
                     ChangeDir dir]).
Proof.
  intros Hh. simpl in Hh. destruct Hh as [<- | [<- | []]];
    unfold Ftp_get, Ftp_delete; enter_handler vfs f req;
    (destruct (String.eqb (metadata_value req "Filename") EmptyString);
     [intros [= <- <-]; split; [intros ? ? [[] | []] | intros ? ? []] |]);
    (destruct (getSecureDirAndFilename vfs _ _) as [[[absPath dir] name] | e];
     [| intros [= <- <-]; split; [intros ? ? [[] | []] | intros ? ? []]]);
    session_unfold; all_calls; intros [= <- <-]; split;
    try (intros n st [HIn | HIn]; in_trace HIn;
         (injection HIn as <- <-;
          exists absPath, dir; (split; [reflexivity | simpl; auto 12])));
    try (intros d e' HIn; in_trace HIn;
         (injection HIn as <- <-; split; reflexivity));
    try (intros n st [HIn | HIn]; in_trace HIn);
    try (intros d e' HIn; in_trace HIn).
Qed.

Lemma get_delete_target_witness :
  snd (run (Ftp_delete Securejoin.emptyVFS (Samples.failing Samples.bad_ChangeDir)
              Samples.ftp
              (Samples.request DeleteOperation "" [("Filename", "reports/out.txt")])))
  = Fail (ErrDirectoryChange "srv/ftp/data/reports" (FtpError "550")).
Proof.
  refine (proj1 (proj2
    (get_delete_target Securejoin.emptyVFS (Samples.failing Samples.bad_ChangeDir)
       Samples.ftp
       (Samples.request DeleteOperation "" [("Filename", "reports/out.txt")])
       (Ftp_delete Securejoin.emptyVFS (Samples.failing Samples.bad_ChangeDir))
       (fst (run (Ftp_delete Securejoin.emptyVFS
                    (Samples.failing Samples.bad_ChangeDir) Samples.ftp
                    (Samples.request DeleteOperation ""
                       [("Filename", "reports/out.txt")]))))
       _ _ _)
    "srv/ftp/data/reports" (FtpError "550") _)).
  - simpl. right; left. reflexivity.
  - vm_compute. reflexivity.
  - vm_compute. right; right; left. reflexivity.
Defined.

(** X13.  Create, get and delete read nothing of the request but the
    [Filename] value, and create the payload: two requests with the same
    [Filename] (and, for create, the same payload) run alike, whatever
    else their metadata holds.  In particular the [Directory] override has
    no effect on these three handlers. *)
Theorem only_filename_is_read
        (vfs : Securejoin.VFS) (srv : Server) (f : Ftp) (req req' : InvokeRequest) :
  metadata_value req "Filename" = metadata_value req' "Filename" ->
  (Data req = Data req' ->
   run (Ftp_create vfs srv f req) = run (Ftp_create vfs srv f req')) /\
  run (Ftp_get vfs srv f req) = run (Ftp_get vfs srv f req') /\
  run (Ftp_delete vfs srv f req) = run (Ftp_delete vfs srv f req').
Proof.
  intros Hname. split; [intros Hdata | split];
    unfold Ftp_create, Ftp_get, Ftp_delete;
    rewrite (mergeWithRequestMetadata_nil (metadata f) req),
            (mergeWithRequestMetadata_nil (metadata f) req');
    cbv iota beta;
    static_connection f req; static_connection f req';
    rewrite <- ?Hname, <- ?Hdata; reflexivity.
Qed.

Lemma only_filename_is_read_witness :
  run (Ftp_delete Securejoin.emptyVFS Samples.okServer Samples.ftp
         (Samples.request DeleteOperation ""
            [("Filename", "reports/out.txt"); ("Directory", "elsewhere")]))
  = run (Ftp_delete Securejoin.emptyVFS Samples.okServer Samples.ftp
           (Samples.request DeleteOperation "" [("Filename", "reports/out.txt")])).
Proof.
  refine (proj2 (proj2
    (only_filename_is_read Securejoin.emptyVFS Samples.okServer Samples.ftp
       (Samples.request DeleteOperation ""
          [("Filename", "reports/out.txt"); ("Directory", "elsewhere")])
       (Samples.request DeleteOperation "" [("Filename", "reports/out.txt")])
       _))).
  vm_compute. reflexivity.
Defined.

(** X14.  In create, get and delete the path is resolved before the
    connection is opened: when the filename is not empty and its
    resolution fails, the handler returns the resolution error, carrying
    the configured root and the filename, without a single call on the
    client. *)
Theorem resolution_error_before_connection
        (vfs : Securejoin.VFS) (srv : Server) (f : Ftp) (req : InvokeRequest)
        (h : Ftp -> InvokeRequest -> Session InvokeResponse) (e : error) :
  In h [Ftp_create vfs srv; Ftp_get vfs srv; Ftp_delete vfs srv] ->
  metadata_value req "Filename" <> EmptyString ->
  getSecureDirAndFilename vfs (RootPath (metadata f)) (metadata_value req "Filename")
  = Err e ->
  run (h f req)
  = ([], Fail (ErrDirAndFilename (RootPath (metadata f))
                                 (metadata_value req "Filename") e)).
Proof.
  intros Hh Hne Hres.
  assert (Hneb : String.eqb (metadata_value req "Filename") EmptyString = false).
  { destruct (String.eqb _ _) eqn:E; [| reflexivity].
    apply String.eqb_eq in E. contradiction. }
  simpl in Hh. destruct Hh as [<- | [<- | [<- | []]]];
    unfold Ftp_create, Ftp_get, Ftp_delete;
    rewrite mergeWithRequestMetadata_nil; cbv iota beta;
    rewrite Hneb, Hres; reflexivity.
Qed.

Lemma resolution_error_before_connection_witness :
  run (Ftp_get Samples.brokenVFS Samples.okServer Samples.ftp
         (Samples.request GetOperation "" [("Filename", "reports/out.txt")]))
  = ([], Fail (ErrDirAndFilename "/srv/ftp/data" "reports/out.txt"
                                 (OsError "permission denied"))).
Proof.
  apply (resolution_error_before_connection Samples.brokenVFS Samples.okServer
           Samples.ftp
           (Samples.request GetOperation "" [("Filename", "reports/out.txt")])
           (Ftp_get Samples.brokenVFS Samples.okServer)).
  - simpl. right; left. reflexivity.
  - vm_compute. discriminate.
  - vm_compute. reflexivity.
Defined.

(** X15.  The directory that list passes to [List] is the resolution,
    under the configured root, of the [Directory] value of the request
    when there is a non-empty one, and of the configured directory
    otherwise. *)
Theorem list_directory
        (vfs : Securejoin.VFS) (srv : Server) (f : Ftp) (req : InvokeRequest)
        (path : string) (st : option error) :
  In (List_ path, st) (fst (run (Ftp_list vfs srv f req))) ->
  getSecureDir vfs (RootPath (metadata f))
    match Metadata req !! "Directory" with
    | Some val => if String.eqb val EmptyString then Directory (metadata f) else val
    | None => Directory (metadata f)
    end
  = Ok path.
Proof.
  unfold Ftp_list. rewrite mergeWithRequestMetadata_nil. cbv iota beta.
  assert (Hdir : Directory (fst (mergeWithRequestMetadata (metadata f) req))
                 = match Metadata req !! "Directory" with
                   | Some val =>
                       if String.eqb val EmptyString then Directory (metadata f)
                       else val
                   | None => Directory (metadata f)
                   end).
  { unfold mergeWithRequestMetadata. cbn [fst].
    destruct (Metadata req !! "Directory") as [val |]; [| reflexivity].
    destruct (String.eqb val EmptyString); reflexivity. }
  rewrite Hdir. static_connection f req.
  match goal with H : RootPath _ = RootPath _ |- _ => rewrite H end.
  session_unfold. cbn [app fst snd].
  next_call; [intros HIn; in_trace HIn |].
  next_call; [intros HIn; in_trace HIn |].
  destruct (getSecureDir vfs _ _) as [dir | e]; [| intros HIn; in_trace HIn].
  all_calls; leave_handler; intros HIn; in_trace HIn;
    injection HIn as <- _; reflexivity.
Qed.

Lemma list_directory_witness :
  getSecureDir Securejoin.emptyVFS "/srv/ftp/data" "reports"
  = Ok "srv/ftp/data/reports".
Proof.
  apply (list_directory Securejoin.emptyVFS Samples.okServer Samples.ftp
           (Samples.request ListOperation "" [("Directory", "reports")])
           "srv/ftp/data/reports" None).
  vm_compute. right; right; left. reflexivity.
Defined.

(** X16.  A listing without entries is encoded with a [null] in the place
    of the file list, not with an empty array: when the server returns no
    entry, the response of a successful list is what [json.Marshal]
    writes for the object with the resolved directory (as a string
    literal, in which a byte that is not valid UTF-8 is replaced by
    U+FFFD) and [fileInfos] set to [null]. *)
Theorem list_of_empty_directory
        (vfs : Securejoin.VFS) (srv : Server) (f : Ftp) (req : InvokeRequest)
        (tr : list Event) (resp : InvokeResponse) :
  (forall history dir, entries srv history dir = []) ->
  run (Ftp_list vfs srv f req) = (tr, Return resp) ->
  exists dir,
    In (List_ dir, None) tr /\
    RespData resp
    = Json.render (Json.Obj [("directory", Json.Str dir); ("fileInfos", Json.Null)]).
Proof.
  intros Hempty. unfold Ftp_list. rewrite mergeWithRequestMetadata_nil.
  cbv iota beta. session_unfold. cbn [app fst snd].
  next_call; [discriminate |]. next_call; [discriminate |].
  destruct (getSecureDir vfs _ _) as [dir | e]; [| discriminate].
  next_call; [discriminate |]. next_call; [discriminate |].
  rewrite Hempty. leave_handler. intros [= <- <-].
  exists dir. split; [simpl; auto 12 | reflexivity].
Qed.

Lemma list_of_empty_directory_witness :
  exists dir,
    In (List_ dir, None)
       (fst (run (Ftp_list Securejoin.emptyVFS (Samples.failing (fun _ => false))
                    Samples.ftp (Samples.request ListOperation "" [])))) /\
    RespData
      (match snd (run (Ftp_list Securejoin.emptyVFS
                         (Samples.failing (fun _ => false))
                         Samples.ftp (Samples.request ListOperation "" []))) with
       | Return resp => resp
       | Fail _ => {| RespData := EmptyString |}
       end)
    = Json.render (Json.Obj [("directory", Json.Str dir); ("fileInfos", Json.Null)]).
Proof.
  apply (list_of_empty_directory Securejoin.emptyVFS
           (Samples.failing (fun _ => false)) Samples.ftp
           (Samples.request ListOperation "" [])).
  - reflexivity.
  - vm_compute. reflexivity.
Defined.

(** X17.  Merging is idempotent, and an override survives a later merge
    with a request that has none: merging the same request again changes
    nothing, and merging the result with a request without a [Directory]
    value, or with an empty one, gives the result back. *)
Theorem merge_is_idempotent (static : ftpMetadata) (req req0 : InvokeRequest) :
  mergeWithRequestMetadata (fst (mergeWithRequestMetadata static req)) req
  = mergeWithRequestMetadata static req /\
  (Metadata req0 !! "Directory" = None \/
   Metadata req0 !! "Directory" = Some EmptyString ->
   mergeWithRequestMetadata (fst (mergeWithRequestMetadata static req)) req0
   = (fst (mergeWithRequestMetadata static req), None)).
Proof.
  split.
  - unfold mergeWithRequestMetadata. cbn [fst].
    destruct (Metadata req !! "Directory") as [val |] eqn:E; [| now destruct static].
    destruct (negb (String.eqb val EmptyString)); [reflexivity | now destruct static].
  - intros [H | H]; unfold mergeWithRequestMetadata at 1; rewrite H; reflexivity.
Qed.

Lemma merge_is_idempotent_witness :
  mergeWithRequestMetadata
    (fst (mergeWithRequestMetadata (metadata Samples.ftp)
            (Samples.request ListOperation "" [("Directory", "reports")])))
    (Samples.request ListOperation "" [("Directory", "")])
  = (fst (mergeWithRequestMetadata (metadata Samples.ftp)
            (Samples.request ListOperation "" [("Directory", "reports")])), None).
Proof.
  apply (proj2 (merge_is_idempotent (metadata Samples.ftp)
                  (Samples.request ListOperation "" [("Directory", "reports")])
                  (Samples.request ListOperation "" [("Directory", "")]))).
  right. vm_compute. reflexivity.
Defined.

(** X1.  [Invoke] serves exactly the operations that [Operations]
    announces: for any other operation it returns the
    unsupported-operation error, naming the operation, without a single
    call on the client; for an announced operation it never returns that
    error. *)
Theorem Invoke_serves_Operations
        (vfs : Securejoin.VFS) (srv : Server) (f : Ftp) (req : InvokeRequest) :
  (~ In (Operation req) Ftp_Operations ->
   run (Ftp_Invoke vfs srv f req)
   = ([], Fail (ErrUnsupportedOperation (Operation req)))) /\
  (In (Operation req) Ftp_Operations ->
   forall op, snd (run (Ftp_Invoke vfs srv f req)) <> Fail (ErrUnsupportedOperation op)).
Proof.
  unfold Ftp_Invoke, Ftp_Operations. split.
  - intros Hno.
    destruct (String.eqb (Operation req) CreateOperation) eqn:E1;
      [apply String.eqb_eq in E1; exfalso; apply Hno; simpl; auto |].
    destruct (String.eqb (Operation req) ListOperation) eqn:E2;
      [apply String.eqb_eq in E2; exfalso; apply Hno; simpl; auto |].
    destruct (String.eqb (Operation req) GetOperation) eqn:E3;
      [apply String.eqb_eq in E3; exfalso; apply Hno; simpl; auto |].
    destruct (String.eqb (Operation req) DeleteOperation) eqn:E4;
      [apply String.eqb_eq in E4; exfalso; apply Hno; simpl; auto |].
    reflexivity.
  - intros Hin op.
    destruct (String.eqb (Operation req) CreateOperation) eqn:E1.
    { unfold Ftp_create. enter_handler vfs f req.
      destruct (String.eqb (metadata_value req "Filename") EmptyString);
        [discriminate |].
      destruct (getSecureDirAndFilename vfs _ _) as [[[absPath dir] name] | e];
        [| discriminate].
      session_unfold. all_calls; leave_handler; discriminate. }
    destruct (String.eqb (Operation req) ListOperation) eqn:E2.
    { unfold Ftp_list. enter_handler vfs f req.
      session_unfold. all_calls; try discriminate.
      destruct (getSecureDir vfs _ _) as [dir | e]; [| discriminate].
      all_calls; leave_handler; discriminate. }
    destruct (String.eqb (Operation req) GetOperation) eqn:E3.
    { unfold Ftp_get. enter_handler vfs f req.
      destruct (String.eqb (metadata_value req "Filename") EmptyString);
        [discriminate |].
      destruct (getSecureDirAndFilename vfs _ _) as [[[absPath dir] name] | e];
        [| discriminate].
      session_unfold. all_calls; discriminate. }
    destruct (String.eqb (Operation req) DeleteOperation) eqn:E4.
    { unfold Ftp_delete. enter_handler vfs f req.
      destruct (String.eqb (metadata_value req "Filename") EmptyString);
        [discriminate |].
      destruct (getSecureDirAndFilename vfs _ _) as [[[absPath dir] name] | e];
        [| discriminate].
      session_unfold. all_calls; discriminate. }
    exfalso. simpl in Hin.
    destruct Hin as [H | [H | [H | [H | []]]]]; symmetry in H;
      apply String.eqb_eq in H; congruence.
Qed.

Lemma Invoke_serves_Operations_witness :
  run (Ftp_Invoke Securejoin.emptyVFS Samples.okServer Samples.ftp
         (Samples.request "put" "hello" [("Filename", "a.txt")]))
  = ([], Fail (ErrUnsupportedOperation "put")).
Proof.
  apply (proj1 (Invoke_serves_Operations Securejoin.emptyVFS Samples.okServer
                  Samples.ftp
                  (Samples.request "put" "hello" [("Filename", "a.txt")]))).
  simpl. intros [H | [H | [H | [H | []]]]]; discriminate H.
Defined.

(** X18.  The response of a successful create is what [json.Marshal]
    writes for [createResponse] with the resolved path as [FileName]: the
    object whose one field [fileName] is the string literal of the path
    that joins the directory entered and the name stored (in that literal
    a byte that is not valid UTF-8 is replaced by U+FFFD and the control
    characters are escaped). *)
Theorem create_response
        (vfs : Securejoin.VFS) (srv : Server) (f : Ftp) (req : InvokeRequest)
        (tr : list Event) (resp : InvokeResponse) :
  run (Ftp_create vfs srv f req) = (tr, Return resp) ->
  exists absPath dir name,
    getSecureDirAndFilename vfs (RootPath (metadata f))
      (metadata_value req "Filename") = Ok (absPath, dir, name) /\
    In (ChangeDir dir, None) tr /\ In (Stor name (Data req), None) tr /\
    RespData resp = Json.render (Json.Obj [("fileName", Json.Str absPath)]).
Proof.
  unfold Ftp_create. enter_handler vfs f req.
  destruct (String.eqb (metadata_value req "Filename") EmptyString);
    [discriminate |].
  destruct (getSecureDirAndFilename vfs _ _) as [[[absPath dir] name] | e];
    [| discriminate].
  session_unfold. all_calls; leave_handler; try discriminate;
    (intros [= <- <-]; exists absPath, dir, name;
     (split; [reflexivity |]); (split; [simpl; auto 12 |]);
     (split; [simpl; auto 12 | reflexivity])).
Qed.

Lemma create_response_witness :
  exists absPath dir name,
    getSecureDirAndFilename Securejoin.emptyVFS (RootPath (metadata Samples.ftp))
      (metadata_value
         (Samples.request CreateOperation "hello" [("Filename", "a/../b.txt")])
         "Filename") = Ok (absPath, dir, name) /\
    In (ChangeDir dir, None)
       (fst (run (Ftp_create Securejoin.emptyVFS Samples.okServer Samples.ftp
                    (Samples.request CreateOperation "hello"
                       [("Filename", "a/../b.txt")])))) /\
    In (Stor name "hello", None)
       (fst (run (Ftp_create Securejoin.emptyVFS Samples.okServer Samples.ftp
                    (Samples.request CreateOperation "hello"
                       [("Filename", "a/../b.txt")])))) /\
    RespData {| RespData :=
                  Json.render (Json.Obj [("fileName", Json.Str "srv/ftp/data/b.txt")]) |}
    = Json.render (Json.Obj [("fileName", Json.Str absPath)]).
Proof.
  apply (create_response Securejoin.emptyVFS Samples.okServer Samples.ftp
           (Samples.request CreateOperation "hello" [("Filename", "a/../b.txt")])).
  vm_compute. reflexivity.
Defined.

(** X19.  No failure of the server is swallowed, apart from two: whenever
    a call other than a change of directory or the release of the
    retrieval stream fails, the invocation fails, and the error it returns
    wraps the error of that call.  This holds for [Quit] too: a failed
    termination after a successful action is reported, and no response is
    returned. *)
Theorem failed_call_is_reported
        (vfs : Securejoin.VFS) (srv : Server) (f : Ftp) (req : InvokeRequest)
        (c : Command) (e : error) :
  In (c, Some e) (fst (run (Ftp_Invoke vfs srv f req))) ->
  is_close c = false -> is_ChangeDir c = false ->
  exists be,
    snd (run (Ftp_Invoke vfs srv f req)) = Fail be /\ cause be = Some e.
Proof.
  unfold Ftp_Invoke.
  destruct (String.eqb (Operation req) CreateOperation).
  { unfold Ftp_create. enter_handler vfs f req.
    destruct (String.eqb (metadata_value req "Filename") EmptyString);
      [intros [] |].
    destruct (getSecureDirAndFilename vfs _ _) as [[[absPath dir] name] | e0];
      [| intros []].
    session_unfold. all_calls; leave_handler; intros HIn Hc Hd; in_trace HIn;
      (injection HIn as <- <-; try discriminate Hc; try discriminate Hd;
       eexists; (split; reflexivity)). }
  destruct (String.eqb (Operation req) ListOperation).
  { unfold Ftp_list. enter_handler vfs f req.
    session_unfold. cbn [app fst snd].
    next_call;
      [intros HIn Hc Hd; in_trace HIn;
       (injection HIn as <- <-; eexists; (split; reflexivity)) |].
    next_call;
      [intros HIn Hc Hd; in_trace HIn;
       (injection HIn as <- <-; eexists; (split; reflexivity)) |].
    destruct (getSecureDir vfs _ _) as [dir | e0];
      [| intros HIn; in_trace HIn].
    all_calls; leave_handler; intros HIn Hc Hd; in_trace HIn;
      (injection HIn as <- <-; eexists; (split; reflexivity)). }
  destruct (String.eqb (Operation req) GetOperation).
  { unfold Ftp_get. enter_handler vfs f req.
    destruct (String.eqb (metadata_value req "Filename") EmptyString);
      [intros [] |].
    destruct (getSecureDirAndFilename vfs _ _) as [[[absPath dir] name] | e0];
      [| intros []].
    session_unfold. all_calls; intros HIn Hc Hd; in_trace HIn;
      (injection HIn as <- <-; try discriminate Hc; try discriminate Hd;
       eexists; (split; reflexivity)). }
  destruct (String.eqb (Operation req) DeleteOperation).
  { unfold Ftp_delete. enter_handler vfs f req.
    destruct (String.eqb (metadata_value req "Filename") EmptyString);
      [intros [] |].
    destruct (getSecureDirAndFilename vfs _ _) as [[[absPath dir] name] | e0];
      [| intros []].
    session_unfold. all_calls; intros HIn Hc Hd; in_trace HIn;
      (injection HIn as <- <-; try discriminate Hc; try discriminate Hd;
       eexists; (split; reflexivity)). }
  intros [].
Qed.

Lemma failed_call_is_reported_witness :
  exists be,
    snd (run (Ftp_Invoke Securejoin.emptyVFS (Samples.failing Samples.bad_Quit)
                Samples.ftp
                (Samples.request CreateOperation "hello"
                   [("Filename", "reports/out.txt")])))
    = Fail be /\ cause be = Some (FtpError "550").
Proof.
  apply (failed_call_is_reported Securejoin.emptyVFS
           (Samples.failing Samples.bad_Quit) Samples.ftp
           (Samples.request CreateOperation "hello" [("Filename", "reports/out.txt")])
           Quit).
  - vm_compute. right; right; right; right; left. reflexivity.
  - reflexivity.
  - reflexivity.
Defined.

(** X20.  A well-formed name is kept as it is: on a host without symbolic
    links, a relative name made of normal elements resolves to the
    sanitised root followed by exactly those elements, so that a plain
    file name is stored in the root directory itself under that name. *)
Theorem clean_name_is_kept
        (vfs : Securejoin.VFS) (rootPath root' : string) (l : list string) :
  Securejoin.no_links vfs ->
  l <> [] -> Forall (fun e => Filepath.normal e = true) l ->
  Securejoin.SecureJoin vfs "." rootPath = Ok root' ->
  getSecureDir vfs rootPath (Filepath.join_sep l)
  = Ok (Filepath.Join [root'; Filepath.join_sep l]) /\
  getSecureDirAndFilename vfs rootPath (Filepath.join_sep l)
  = Ok (Filepath.Join [root'; Filepath.join_sep l],
        Filepath.Join [root'; Filepath.join_sep (removelast l)],
        List.last l EmptyString).
Proof.
  intros Hvfs Hne Hl Eroot.
  pose proof Eroot as Es. apply (SecureJoin_shape vfs []) in Es; [| constructor].
  destruct Es as (rs & Hrs & ->). cbn [app] in *.
  assert (Hall : Forall (fun e => Filepath.normal e = true) (rs ++ l))
    by (apply List.Forall_app; now split).
  assert (Hjoin : forall k, Forall (fun e => Filepath.normal e = true) k ->
            Filepath.Join [Filepath.rel_path rs; Filepath.join_sep k]
            = Filepath.rel_path (rs ++ k)).
  { intros k Hk. unfold Filepath.Join. cbn [filter list_filter].
    assert (Hrne : String.eqb (Filepath.rel_path rs) EmptyString = false).
    { destruct (list_snoc_cases rs) as [-> | (i & y & ->)]; [reflexivity |].
      rewrite rel_path_snoc. now apply join_sep_nonempty. }
    rewrite Hrne. cbn [negb Is_true].
    destruct (decide True) as [_ | Hn]; [| now destruct Hn].
    destruct (list_snoc_cases k) as [-> | (i & y & ->)].
    - cbn [Filepath.join_sep String.eqb negb Is_true].
      destruct (decide False) as [[] | _].
      rewrite app_nil_r. cbn [Filepath.join_sep].
      pose proof (Clean_rel_abs rs [] Hrs (List.Forall_nil _)) as E.
      rewrite app_nil_r in E.
      destruct (list_snoc_cases rs) as [-> | (j & z & ->)]; [reflexivity |].
      unfold Filepath.Clean. rewrite rel_path_is_rel by assumption.
      unfold Filepath.clean_elems.
      rewrite split_rel_path_fold by assumption. now rewrite rev_involutive.
    - rewrite join_sep_nonempty by assumption. cbn [negb Is_true].
      destruct (decide True) as [_ | Hn]; [| now destruct Hn].
      change (Filepath.join_sep [Filepath.rel_path rs; Filepath.join_sep (i ++ [y])])
        with (Filepath.rel_path rs +:+ Filepath.abs_path (i ++ [y])).
      now apply Clean_rel_abs. }
  assert (Eres : Securejoin.SecureJoin vfs (Filepath.rel_path rs) (Filepath.join_sep l)
                 = Ok (Filepath.rel_path (rs ++ l))).
  { rewrite SecureJoin_link_free by assumption.
    unfold Securejoin.SecureJoin, Securejoin.SecureJoinVFS, Securejoin.maxLinks.
    rewrite components_join by assumption.
    pose proof (walk_normal (Filepath.rel_path rs) 255
                  (Securejoin.ends_with_sep (Filepath.join_sep l))
                  l Hl [] (List.Forall_nil _))
      as Hwalk.
    cbn [Securejoin.buffer app] in Hwalk. rewrite Hwalk.
    change ("/" +:+ Securejoin.buffer l)
      with (String Filepath.Separator (Securejoin.buffer l)).
    rewrite Clean_abs_buffer by assumption.
    now rewrite Clean_rel_abs. }
  unfold getSecureDir, getSecureDirAndFilename. rewrite Eroot, Eres.
  rewrite !Hjoin; try assumption.
  - split; [reflexivity |].
    destruct (list_snoc_cases l) as [-> | (i & y & ->)]; [congruence |].
    rewrite removelast_last, last_last, app_assoc.
    rewrite app_assoc in Hall.
    now rewrite Dir_rel_path, Base_rel_path.
  - destruct (list_snoc_cases l) as [-> | (i & y & ->)]; [congruence |].
    rewrite removelast_last. apply List.Forall_app in Hl. tauto.
Qed.

Lemma clean_name_is_kept_witness :
  getSecureDirAndFilename Securejoin.emptyVFS "/srv/ftp/data"
    (Filepath.join_sep ["reports"; "out.txt"])
  = Ok (Filepath.Join ["srv/ftp/data"; Filepath.join_sep ["reports"; "out.txt"]],
        Filepath.Join ["srv/ftp/data"; Filepath.join_sep (removelast ["reports"; "out.txt"])],
        List.last ["reports"; "out.txt"] EmptyString).
Proof.
  apply (clean_name_is_kept Securejoin.emptyVFS "/srv/ftp/data" "srv/ftp/data"
           ["reports"; "out.txt"]).
  - apply emptyVFS_no_links.
  - discriminate.
  - repeat constructor.
  - vm_compute. reflexivity.
Defined.

(** ** delete, in full *)

(** C9, as amended.  A run of the delete handler that has entered the
    resolved directory sends the delete command for the resolved file
    name.  When the server refuses that command the handler returns the
    file-delete error: deleting a file that does not exist is an error.
    When the command succeeds the handler calls [Quit], and returns the
    empty payload if [Quit] succeeds and the quit error if it fails.  The
    handler returns a response in no other case: a response is empty and
    comes after a successful delete command and a successful [Quit]. *)
Theorem delete_result
        (vfs : Securejoin.VFS) (srv : Server) (f : Ftp) (req : InvokeRequest)
        (tr : list Event) (r : outcome InvokeResponse) :
  run (Ftp_delete vfs srv f req) = (tr, r) ->
  (forall name e, In (Delete name, Some e) tr -> r = Fail (ErrFileDelete name e)) /\
  (forall name, In (Delete name, None) tr ->
      (In (Quit, None) tr /\ r = Return {| RespData := EmptyString |}) \/
      (exists e, In (Quit, Some e) tr /\ r = Fail (ErrQuit e))) /\
  (forall dir, In (ChangeDir dir, None) tr ->
      exists absPath name st,
        getSecureDirAndFilename vfs (RootPath (metadata f))
          (metadata_value req "Filename") = Ok (absPath, dir, name) /\
        In (Delete name, st) tr) /\
  (forall resp, r = Return resp ->
      resp = {| RespData := EmptyString |} /\
      exists absPath dir name,
        getSecureDirAndFilename vfs (RootPath (metadata f))
          (metadata_value req "Filename") = Ok (absPath, dir, name) /\
        tr = [(Dial (Server_ (metadata f)), None);
              (Login (User (metadata f)) (Password (metadata f)), None);
              (ChangeDir dir, None); (Delete name, None); (Quit, None)]).
Proof.
  intros Hrun.
  destruct (delete_command_outcome vfs srv f req tr r Hrun) as [H1 H2].
  split; [exact H1 | split; [exact H2 |]].
  clear H1 H2. revert Hrun.
  unfold Ftp_delete. enter_handler vfs f req.
  destruct (String.eqb (metadata_value req "Filename") EmptyString);
    [intros [= <- <-]; split; [intros ? [] | discriminate] |].
  destruct (getSecureDirAndFilename vfs _ _) as [[[absPath dir] name] | e];
    [| intros [= <- <-]; split; [intros ? [] | discriminate]].
  session_unfold. all_calls; intros [= <- <-]; split;
    try discriminate;
    try (intros d HIn; in_trace HIn;
         (injection HIn as <-; exists absPath, name; eexists;
          (split; [reflexivity | simpl; auto 12])));
    (intros resp Hr; injection Hr as <-; (split; [reflexivity |]);
     exists absPath, dir, name; (split; reflexivity)).
Qed.

Lemma delete_result_witness :
  snd (run (Ftp_delete Securejoin.emptyVFS (Samples.failing Samples.bad_Delete)
              Samples.ftp
              (Samples.request DeleteOperation ""
                 [("Filename", "reports/out.txt")])))
  = Fail (ErrFileDelete "out.txt" (FtpError "550")).
Proof.
  refine (proj1
    (delete_result Securejoin.emptyVFS (Samples.failing Samples.bad_Delete)
       Samples.ftp
       (Samples.request DeleteOperation "" [("Filename", "reports/out.txt")])
       (fst (run (Ftp_delete Securejoin.emptyVFS
                    (Samples.failing Samples.bad_Delete) Samples.ftp
                    (Samples.request DeleteOperation ""
                       [("Filename", "reports/out.txt")]))))
       _ _)
    "out.txt" (FtpError "550") _).
  - vm_compute. reflexivity.
  - vm_compute. right; right; right; left. reflexivity.
Defined.

Example safe_dir_samples :
  map safe_dir ["."; "a/b"; "a/../b"; "srv/x/../../etc"; "/a"; "a//b"; "a/"; ""]
  = [true; true; false; false; false; false; false; false].
Proof. vm_compute. reflexivity. Qed.

Example SecureJoin_link_loops :
  map (Securejoin.SecureJoin Samples.linkedVFS "data") ["loop"; "loop/x/"]
  = [Err (ELOOP "data/loop/"); Err (ELOOP "data/loop/x/")].
Proof. vm_compute. reflexivity. Qed.

Example escape_samples :
  map Json.escape
      ["a<b>&c";
       String (ascii_of_nat 8) (String (ascii_of_nat 12) (String (ascii_of_nat 1) EmptyString));
       String "a" (String (ascii_of_nat 255) "b");
       String (ascii_of_nat 195) (String (ascii_of_nat 169) EmptyString);
       String (ascii_of_nat 195) EmptyString;
       String (ascii_of_nat 226) (String (ascii_of_nat 128) (String (ascii_of_nat 168) EmptyString));
       String (ascii_of_nat 237) (String (ascii_of_nat 160) (String (ascii_of_nat 128) EmptyString))]
  = ["a\u003cb\u003e\u0026c";
     "\b\f\u0001";
     "a\ufffdb";
     String (ascii_of_nat 195) (String (ascii_of_nat 169) EmptyString);
     "\ufffd";
     "\u2028";
     "\ufffd\ufffd\ufffd"].
Proof. vm_compute. reflexivity. Qed.
